(** * in_n_out._processors: the processor registry

    A shallow embedding of [src/in_n_out/_processors.py]: the module-level
    dictionary [_PROCESSORS], the lookup [get_processor], the callable /
    context manager [set_processors] and the decorator [processor].

    The module keeps one global dictionary and raises exceptions, so the
    code is embedded in a state-and-exception monad over a [world] that
    holds the dictionary and the warnings emitted so far.  Python
    dictionaries iterate in insertion order and [get_processor] depends on
    that order, so a dictionary is an association list, with the update
    rules of [dict]: assigning to a present key keeps its position,
    assigning to a new key appends, deleting removes the entry. *)

From Stdlib Require Import List String Bool Arith Lia.
Import ListNotations.
Local Open Scope string_scope.
Local Open Scope list_scope.

Set Implicit Arguments.

(* ================================================================== *)
(** ** Python dictionaries, in insertion order *)
(* ================================================================== *)

Module PyDict.
Section Dict.
Variables K V : Type.
Variable eqb : K -> K -> bool.

Definition dict : Type := list (K * V).

(** [d.get(k)] *)
Fixpoint get (k : K) (d : dict) : option V :=
  match d with
  | [] => None
  | (k', v) :: d' => if eqb k k' then Some v else get k d'
  end.

(** [k in d], for a hashable [k] *)
Definition contains (k : K) (d : dict) : bool :=
  match get k d with Some _ => true | None => false end.

(** [d[k] = v]: a present key keeps its place, a new key goes last *)
Fixpoint setitem (k : K) (v : V) (d : dict) : dict :=
  match d with
  | [] => [(k, v)]
  | (k', v') :: d' =>
      if eqb k k' then (k', v) :: d' else (k', v') :: setitem k v d'
  end.

(** [del d[k]]: [None] stands for the [KeyError] of a missing key *)
Fixpoint delitem (k : K) (d : dict) : option dict :=
  match d with
  | [] => None
  | (k', v') :: d' =>
      if eqb k k' then Some d'
      else match delitem k d' with
           | Some r => Some ((k', v') :: r)
           | None => None
           end
  end.

(** [d.pop(k, None)], the value dropped *)
Definition pop (k : K) (d : dict) : dict :=
  match delitem k d with Some r => r | None => d end.

(** [d.update(m)] *)
Definition update (m : dict) (d : dict) : dict :=
  fold_left (fun acc kv => setitem (fst kv) (snd kv) acc) m d.

(** [list(d)], [list(d.values())] *)
Definition keys (d : dict) : list K := map fst d.
Definition values (d : dict) : list V := map snd d.

(** a dictionary holds a key once *)
Definition wf (d : dict) : Prop := NoDup (keys d).
End Dict.
End PyDict.

(* ================================================================== *)
(** ** Python values that reach the registry *)
(* ================================================================== *)

(** Hashable values, the only ones a dictionary can hold as keys.
    A class is named; [KNone] is [None]; [KObject] stands for any other
    hashable object that is not a class: an [object()] sentinel, a
    parameterized generic such as [List[int]]. *)
Inductive hkey : Type :=
| KClass (name : string)
| KNone
| KObject (id : nat).

(** Any value a caller can pass to [get_processor].  [Unhashable] stands
    for a list, a dict or a set: [hash] raises [TypeError] on it. *)
Inductive pyval : Type :=
| Hashable (k : hkey)
| Unhashable (id : nat).

Definition hkey_eqb (a b : hkey) : bool :=
  match a, b with
  | KClass x, KClass y => String.eqb x y
  | KNone, KNone => true
  | KObject i, KObject j => Nat.eqb i j
  | _, _ => false
  end.

(** A function object: its name and what [typing.get_type_hints] returns
    for it, a dictionary from parameter name (or ["return"]) to the
    resolved annotation, in declaration order. *)
Record pyfunc : Type := {
  fn_name : string;
  get_type_hints : PyDict.dict string hkey
}.

Inductive exn : Type :=
| ValueError (k : hkey)   (* "Class {k} already has a processor and clobber is False" *)
| TypeError               (* unhashable key; issubclass that refuses *)
| KeyError (k : hkey)
| IndexError.

Inductive warning : Type :=
| UserWarning (func : pyfunc) (text : string).

(* ================================================================== *)
(** ** The module state and its monad *)
(* ================================================================== *)

Abbreviation registry := (PyDict.dict hkey pyfunc).

Record world : Type := {
  _PROCESSORS : registry;
  emitted : list warning
}.

Inductive result (A : Type) : Type :=
| Ok (a : A)
| Raise (e : exn).
Arguments Ok {A} a.
Arguments Raise {A} e.

(** The class hierarchy of the running program: [H d b] is what the
    builtin [issubclass(d, b)] does on the classes [d] and [b].  It answers
    [True] or [False], or it raises: the subclass check of a
    [typing.Protocol] that is not runtime-checkable and of a [TypedDict]
    raises [TypeError], and a metaclass can raise what it likes. *)
Definition hierarchy : Type := string -> string -> result bool.

Definition M (A : Type) : Type := world -> result A * world.

Definition ret {A} (a : A) : M A := fun w => (Ok a, w).
Definition raise {A} (e : exn) : M A := fun w => (Raise e, w).
Definition bind {A B} (m : M A) (f : A -> M B) : M B :=
  fun w => match m w with
           | (Ok a, w') => f a w'
           | (Raise e, w') => (Raise e, w')
           end.

Declare Scope py_scope.
Delimit Scope py_scope with py.
Notation "x <- m ;; k" := (bind m (fun x => k))
  (at level 100, m at next level, right associativity) : py_scope.
Notation "m ;;; k" := (bind m (fun _ => k))
  (at level 100, right associativity) : py_scope.
Local Open Scope py_scope.

(** reading and writing the global [_PROCESSORS] *)
Definition read_PROCESSORS : M registry := fun w => (Ok (_PROCESSORS w), w).
Definition write_PROCESSORS (d : registry) : M unit :=
  fun w => (Ok tt, {| _PROCESSORS := d; emitted := emitted w |}).

(** [warnings.warn(...)] *)
Definition warn (x : warning) : M unit :=
  fun w => (Ok tt, {| _PROCESSORS := _PROCESSORS w; emitted := emitted w ++ [x] |}).

(* ------------------------------------------------------------------ *)
(** *** builtins *)

(** [isinstance(x, type)] *)
Definition is_class (k : hkey) : bool :=
  match k with KClass _ => true | _ => false end.

Definition isinstance_type (x : pyval) : bool :=
  match x with Hashable k => is_class k | Unhashable _ => false end.

(** [issubclass(a, b)]: [TypeError] unless both arguments are classes,
    and on two classes what the hierarchy says, an answer or an exception *)
Definition issubclass (H : hierarchy) (a b : pyval) : M bool :=
  match a, b with
  | Hashable (KClass d), Hashable (KClass c) => fun w => (H d c, w)
  | _, _ => raise TypeError
  end.

(** [x in d]: hashes [x] first *)
Definition py_contains (x : pyval) (d : registry) : M bool :=
  match x with
  | Hashable k => ret (PyDict.contains hkey_eqb k d)
  | Unhashable _ => raise TypeError
  end.

(** [d[x]] *)
Definition py_getitem (x : pyval) (d : registry) : M pyfunc :=
  match x with
  | Hashable k =>
      match PyDict.get hkey_eqb k d with
      | Some v => ret v
      | None => raise (KeyError k)
      end
  | Unhashable _ => raise TypeError
  end.

(* ================================================================== *)
(** ** [get_processor] *)
(* ================================================================== *)

(** the [for key, val in _PROCESSORS.items()] loop; [and] short-circuits *)
Fixpoint get_processor_scan (H : hierarchy) (type_ : pyval)
    (items : list (hkey * pyfunc)) : M (option pyfunc) :=
  match items with
  | [] => ret None
  | (key, val) :: rest =>
      b <- (if isinstance_type (Hashable key)
            then issubclass H type_ (Hashable key)
            else ret false) ;;
      if b then ret (Some val) else get_processor_scan H type_ rest
  end.

Definition get_processor (H : hierarchy) (type_ : pyval) : M (option pyfunc) :=
  procs <- read_PROCESSORS ;;
  found <- py_contains type_ procs ;;
  if found then
    v <- py_getitem type_ procs ;; ret (Some v)
  else if isinstance_type type_ then
    procs <- read_PROCESSORS ;;
    get_processor_scan H type_ procs
  else ret None.

(* ================================================================== *)
(** ** [set_processors] *)
(* ================================================================== *)

(** An instance: [_before] maps each key of the mapping to the processor
    it had, [None] standing for the private sentinel [_NULL]. *)
Record set_processors : Type := {
  _before : PyDict.dict hkey (option pyfunc)
}.

(** the [for k in mapping] loop of [__init__] *)
Fixpoint set_processors_init_loop (clobber : bool) (ks : list hkey)
    (before : PyDict.dict hkey (option pyfunc))
    : M (PyDict.dict hkey (option pyfunc)) :=
  match ks with
  | [] => ret before
  | k :: rest =>
      procs <- read_PROCESSORS ;;
      if PyDict.contains hkey_eqb k procs && negb clobber then
        raise (ValueError k)
      else
        set_processors_init_loop clobber rest
          (PyDict.setitem hkey_eqb k (PyDict.get hkey_eqb k procs) before)
  end.

Definition set_processors_init (mapping : registry) (clobber : bool)
    : M set_processors :=
  before <- set_processors_init_loop clobber (PyDict.keys mapping) [] ;;
  procs <- read_PROCESSORS ;;
  write_PROCESSORS (PyDict.update hkey_eqb mapping procs) ;;;
  ret {| _before := before |}.

Definition set_processors_enter (self : set_processors) : M unit := ret tt.

(** [del _PROCESSORS[key]] *)
Definition del_PROCESSORS (key : hkey) : M unit :=
  procs <- read_PROCESSORS ;;
  match PyDict.delitem hkey_eqb key procs with
  | Some d => write_PROCESSORS d
  | None => raise (KeyError key)
  end.

(** the [for key, val in self._before.items()] loop of [__exit__] *)
Fixpoint set_processors_exit_loop (items : list (hkey * option pyfunc))
    : M unit :=
  match items with
  | [] => ret tt
  | (key, val) :: rest =>
      match val with
      | None => del_PROCESSORS key
      | Some v =>
          procs <- read_PROCESSORS ;;
          write_PROCESSORS (PyDict.setitem hkey_eqb key v procs)
      end ;;;
      set_processors_exit_loop rest
  end.

Definition set_processors_exit (self : set_processors) : M unit :=
  set_processors_exit_loop (_before self).

(** [with set_processors(mapping, clobber): body].  [__exit__] runs on
    both exits of the body and returns [None], so an exception of the body
    is raised again after the restore. *)
Definition with_set_processors {A} (mapping : registry) (clobber : bool)
    (body : M A) : M A :=
  self <- set_processors_init mapping clobber ;;
  set_processors_enter self ;;;
  fun w =>
    match body w with
    | (r, w1) =>
        match set_processors_exit self w1 with
        | (Ok _, w2) => (r, w2)
        | (Raise e, w2) => (Raise e, w2)
        end
    end.

(* ================================================================== *)
(** ** [processor] *)
(* ================================================================== *)

Definition no_hints_text : string :=
  " has no argument type hints. Cannot be a processor.".

Definition processor (func : pyfunc) : M pyfunc :=
  let hints := get_type_hints func in
  let hints := PyDict.pop String.eqb "return" hints in
  match hints with
  | [] => warn (UserWarning func no_hints_text) ;;; ret func
  | _ :: _ =>
      match PyDict.values hints with
      | hint0 :: _ =>
          match hint0 with
          | KNone => ret func
          | _ => set_processors_init [(hint0, func)] false ;;; ret func
          end
      | [] => raise IndexError
      end
  end.

(* ================================================================== *)
(** ** A small program to run the model on *)
(* ================================================================== *)

Module Example.
(** [object], [int], [bool(int)], the user classes [B1], [B2],
    [D(B1, B2)], and [Proto], a [typing.Protocol] that is not
    runtime-checkable: [issubclass(d, Proto)] raises [TypeError]. *)
Definition issub : hierarchy := fun d b =>
  if String.eqb b "Proto" then Raise TypeError
  else Ok (String.eqb d b
           || String.eqb b "object"
           || (String.eqb d "bool" && String.eqb b "int")
           || (String.eqb d "D" && (String.eqb b "B1" || String.eqb b "B2"))).

Definition object_ : hkey := KClass "object".
Definition Proto : hkey := KClass "Proto".
Definition int_ : hkey := KClass "int".
Definition str_ : hkey := KClass "str".
Definition B1 : hkey := KClass "B1".
Definition B2 : hkey := KClass "B2".
Definition D : hkey := KClass "D".
Definition sentinel : hkey := KObject 0.

(** [def f(x: int) -> str], [def g(x: int)], [def h(x: object)],
    [def p(x)], [def q() -> int]; [n] is a function whose table of hints
    holds the value [None] itself for [x] *)
Definition f : pyfunc :=
  {| fn_name := "f"; get_type_hints := [("x", int_); ("return", str_)] |}.
Definition g : pyfunc :=
  {| fn_name := "g"; get_type_hints := [("x", int_)] |}.
Definition h : pyfunc :=
  {| fn_name := "h"; get_type_hints := [("x", object_)] |}.
Definition p : pyfunc :=
  {| fn_name := "p"; get_type_hints := [] |}.
Definition q : pyfunc :=
  {| fn_name := "q"; get_type_hints := [("return", int_)] |}.
Definition n : pyfunc :=
  {| fn_name := "n"; get_type_hints := [("x", KNone)] |}.

Definition start (d : registry) : world :=
  {| _PROCESSORS := d; emitted := [] |}.

(** a body that does nothing, and one that raises *)
Definition pass : M unit := ret tt.
Definition boom : M unit := raise (KeyError sentinel).
End Example.

(* ================================================================== *)
(** ** What the loops compute, written as list functions *)
(* ================================================================== *)

(** the first key of a batch that is already registered *)
Definition first_collision (procs : registry) (ks : list hkey) : option hkey :=
  find (fun k => PyDict.contains hkey_eqb k procs) ks.

(** the record [_before] that the loop of [__init__] builds *)
Definition snapshot (procs : registry) (ks : list hkey)
    (before : PyDict.dict hkey (option pyfunc))
    : PyDict.dict hkey (option pyfunc) :=
  fold_left
    (fun acc k => PyDict.setitem hkey_eqb k (PyDict.get hkey_eqb k procs) acc)
    ks before.

(** the test of the scan on one key,
    [isinstance(key, type) and issubclass(type_, key)], for the class [d] *)
Definition ancestor_test (H : hierarchy) (d : string) (key : hkey)
    : result bool :=
  match key with KClass c => H d c | _ => Ok false end.

(** what the scan of the registry ends with for the class [d]: the value
    of the first key whose test answers [True], the exception of a test
    that raises before that, or [None] *)
Fixpoint scan_outcome (H : hierarchy) (d : string) (procs : registry)
    : result (option pyfunc) :=
  match procs with
  | [] => Ok None
  | (key, val) :: rest =>
      match ancestor_test H d key with
      | Ok true => Ok (Some val)
      | Ok false => scan_outcome H d rest
      | Raise e => Raise e
      end
  end.

(** what a lookup of the hashable [T] ends with *)
Definition lookup_outcome (H : hierarchy) (procs : registry) (T : hkey)
    : result (option pyfunc) :=
  match PyDict.get hkey_eqb T procs with
  | Some p => Ok (Some p)
  | None =>
      match T with
      | KClass d => scan_outcome H d procs
      | _ => Ok None
      end
  end.

(** is [key] a class that [d] is a subclass of *)
Definition is_ancestor (H : hierarchy) (d : string) (key : hkey) : bool :=
  match ancestor_test H d key with Ok b => b | Raise _ => false end.

(** the lookup as the specification words it: the exact match, else for a
    class the first registered class it is a subtype of, else absent *)
Definition lookup_spec (H : hierarchy) (procs : registry) (T : hkey)
    : option pyfunc :=
  match PyDict.get hkey_eqb T procs with
  | Some p => Some p
  | None =>
      match T with
      | KClass d =>
          option_map snd (find (fun kv => is_ancestor H d (fst kv)) procs)
      | _ => None
      end
  end.

(** the registry without its keys that are not classes *)
Definition class_keys_only (procs : registry) : registry :=
  filter (fun kv => is_class (fst kv)) procs.

Definition with_PROCESSORS (w : world) (d : registry) : world :=
  {| _PROCESSORS := d; emitted := emitted w |}.

(** the processors after running [m] from [w], and the result *)
Definition procs_after {A} (m : M A) (w : world) : registry :=
  _PROCESSORS (snd (m w)).
Definition result_of {A} (m : M A) (w : world) : result A := fst (m w).

(** the keys of a batch that the registry does not hold, in batch order *)
Definition fresh_keys (procs : registry) (ks : list hkey) : list hkey :=
  filter (fun k => negb (PyDict.contains hkey_eqb k procs)) ks.

(** each key of a batch with what the registry holds for it *)
Definition prior_items (procs : registry) (ks : list hkey)
    : PyDict.dict hkey (option pyfunc) :=
  map (fun k => (k, PyDict.get hkey_eqb k procs)) ks.

(* ================================================================== *)
(** ** Facts about dictionaries *)
(* ================================================================== *)

Module PyDictFacts.
Import PyDict.
Section Facts.
Variables K V : Type.
Variable eqb : K -> K -> bool.
Hypothesis eqb_eq : forall a b, eqb a b = true <-> a = b.

Lemma eqb_refl k : eqb k k = true.
Proof. now apply eqb_eq. Qed.

Lemma eqb_neq a b : a <> b -> eqb a b = false.
Proof.
  intros Hne. destruct (eqb a b) eqn:E; [|reflexivity].
  apply eqb_eq in E. contradiction.
Qed.


Lemma get_setitem_eq k v (d : dict K V) : get eqb k (setitem eqb k v d) = Some v.
Proof.
  induction d as [|[k' v'] d IH]; simpl.
  - now rewrite eqb_refl.
  - destruct (eqb k k') eqn:E; simpl; rewrite E; auto.
Qed.

Lemma get_setitem_ne k k' v (d : dict K V) :
  k <> k' -> get eqb k' (setitem eqb k v d) = get eqb k' d.
Proof.
  intros Hne. induction d as [|[k0 v0] d IH]; simpl.
  - rewrite (eqb_neq (not_eq_sym Hne)). reflexivity.
  - destruct (eqb k k0) eqn:E; simpl.
    + apply eqb_eq in E. subst k0.
      now rewrite (eqb_neq (not_eq_sym Hne)).
    + now rewrite IH.
Qed.

Lemma setitem_absent k v (d : dict K V) :
  get eqb k d = None -> setitem eqb k v d = d ++ [(k, v)].
Proof.
  induction d as [|[k' v'] d IH]; simpl; [reflexivity|].
  destruct (eqb k k'); [discriminate|]. intros Hn. now rewrite IH.
Qed.

Lemma setitem_present k v v0 (d : dict K V) :
  get eqb k d = Some v0 -> setitem eqb k v0 (setitem eqb k v d) = d.
Proof.
  induction d as [|[k' v'] d IH]; simpl; [discriminate|].
  destruct (eqb k k') eqn:E; simpl; rewrite E.
  - intros [= ->]. reflexivity.
  - intros Hg. now rewrite IH.
Qed.

Lemma keys_setitem k v (d : dict K V) x :
  In x (keys (setitem eqb k v d)) -> x = k \/ In x (keys d).
Proof.
  induction d as [|[k' v'] d IH]; simpl.
  - intros [->|[]]. now left.
  - destruct (eqb k k'); simpl; intros [->|Hin]; auto.
    destruct (IH Hin); auto.
Qed.

Lemma delitem_snoc k v (d : dict K V) :
  get eqb k d = None -> delitem eqb k (d ++ [(k, v)]) = Some d.
Proof.
  induction d as [|[k' v'] d IH]; simpl.
  - now rewrite eqb_refl.
  - destruct (eqb k k'); [discriminate|]. intros Hn. now rewrite IH.
Qed.

Lemma delitem_ne k k' (d r : dict K V) :
  k <> k' -> delitem eqb k d = Some r -> get eqb k' r = get eqb k' d.
Proof.
  intros Hne. revert r. induction d as [|[k0 v0] d IH]; simpl; [discriminate|].
  intros r. destruct (eqb k k0) eqn:E.
  - intros [= <-]. apply eqb_eq in E. subst k0.
    now rewrite (eqb_neq (not_eq_sym Hne)).
  - destruct (delitem eqb k d) as [r'|]; [|discriminate].
    intros [= <-]. simpl. now rewrite (IH r' eq_refl).
Qed.


Lemma get_update_notin k (m d : dict K V) :
  ~ In k (keys m) -> get eqb k (update eqb m d) = get eqb k d.
Proof.
  unfold update. revert d.
  induction m as [|[k' v'] m IH]; simpl; intros d Hn; [reflexivity|].
  rewrite IH by tauto. apply get_setitem_ne. intros ->. tauto.
Qed.


Lemma get_notin k (d : dict K V) : ~ In k (keys d) -> get eqb k d = None.
Proof.
  induction d as [|[k' v'] d IH]; simpl; [reflexivity|].
  intros Hn. rewrite eqb_neq; [apply IH; tauto|].
  intros ->. tauto.
Qed.

(** a key deleted from a dictionary is gone *)
Lemma get_delitem k (d r : dict K V) :
  wf d -> delitem eqb k d = Some r -> get eqb k r = None.
Proof.
  unfold wf. revert r. induction d as [|[k0 v0] d IH]; simpl; [discriminate|].
  intros r Hnd. inversion Hnd as [|? ? Hnotin Hnd']; subst.
  destruct (eqb k k0) eqn:E.
  - intros [= <-]. apply eqb_eq in E. subst k0. now apply get_notin.
  - destruct (delitem eqb k d) as [r'|]; [|discriminate].
    intros [= <-]. simpl. rewrite E. now apply IH.
Qed.

(** [del] raises on missing keys only *)
Lemma delitem_missing k (d : dict K V) :
  delitem eqb k d = None -> get eqb k d = None.
Proof.
  induction d as [|[k0 v0] d IH]; simpl; [reflexivity|].
  destruct (eqb k k0); [discriminate|].
  destruct (delitem eqb k d); [discriminate|]. intros _. now apply IH.
Qed.
End Facts.
End PyDictFacts.

Lemma hkey_eqb_eq a b : hkey_eqb a b = true <-> a = b.
Proof.
  destruct a, b; simpl; split; intros E; try discriminate; try reflexivity.
  - apply String.eqb_eq in E. now subst.
  - injection E as ->. apply String.eqb_refl.
  - apply Nat.eqb_eq in E. now subst.
  - injection E as ->. apply Nat.eqb_refl.
Qed.

(* ================================================================== *)
(** ** Running the monad *)
(* ================================================================== *)

Lemma with_PROCESSORS_same w : with_PROCESSORS w (_PROCESSORS w) = w.
Proof. now destruct w. Qed.




(* ------------------------------------------------------------------ *)
(** *** [get_processor] *)

(** The guarded scan calls [issubclass] on class keys only and leaves the
    state alone. *)
Lemma get_processor_scan_class H d items w :
  get_processor_scan H (Hashable (KClass d)) items w =
  (scan_outcome H d items, w).
Proof.
  induction items as [|[key val] items IH]; simpl; [reflexivity|].
  destruct key as [c| |i]; simpl; unfold bind, ret; simpl.
  - destruct (H d c) as [[|]|e]; [reflexivity | apply IH | reflexivity].
  - apply IH.
  - apply IH.
Qed.

Lemma get_processor_hashable H T w :
  get_processor H (Hashable T) w = (lookup_outcome H (_PROCESSORS w) T, w).
Proof.
  unfold get_processor, lookup_outcome, bind, read_PROCESSORS, py_contains,
    py_getitem, ret, PyDict.contains.
  simpl. destruct (PyDict.get hkey_eqb T (_PROCESSORS w)) as [v|] eqn:E.
  - reflexivity.
  - destruct T as [d| |i]; simpl; try reflexivity.
    apply get_processor_scan_class.
Qed.

(** The lookup never writes, whatever the query and however it ends. *)
Lemma get_processor_state H q w : snd (get_processor H q w) = w.
Proof.
  destruct q as [T|i]; [now rewrite get_processor_hashable | reflexivity].
Qed.

(** the tests that answer [False] are passed over *)
Lemma scan_outcome_skip H d (before rest : registry) :
  (forall kv, In kv before -> ancestor_test H d (fst kv) = Ok false) ->
  scan_outcome H d (before ++ rest) = scan_outcome H d rest.
Proof.
  induction before as [|[key val] before IH]; intros Hall; [reflexivity|].
  cbn [app scan_outcome].
  pose proof (Hall (key, val) (or_introl eq_refl)) as Hk. cbn [fst] in Hk.
  rewrite Hk. apply IH. intros kv Hin. apply Hall. now right.
Qed.

(** a processor that the scan returns is the one of a registered ancestor *)
Lemma scan_outcome_some H d (procs : registry) p :
  scan_outcome H d procs = Ok (Some p) ->
  exists c, In (KClass c, p) procs /\ H d c = Ok true.
Proof.
  induction procs as [|[key val] procs IH]; simpl; [discriminate|].
  destruct (ancestor_test H d key) as [[|]|e] eqn:E.
  - intros [= ->]. destruct key as [c| |i]; simpl in E; try discriminate.
    exists c. split; [now left | exact E].
  - intros Hs. destruct (IH Hs) as (c & Hin & Hc). exists c. split; [now right | exact Hc].
  - discriminate.
Qed.

(** an exception of the scan is one that [issubclass] raised on a
    registered class *)
Lemma scan_outcome_raise H d (procs : registry) e :
  scan_outcome H d procs = Raise e ->
  exists c v, In (KClass c, v) procs /\ H d c = Raise e.
Proof.
  induction procs as [|[key val] procs IH]; simpl; [discriminate|].
  destruct (ancestor_test H d key) as [[|]|e'] eqn:E.
  - discriminate.
  - intros Hs. destruct (IH Hs) as (c & v & Hin & Hc).
    exists c, v. split; [now right | exact Hc].
  - intros [= ->]. destruct key as [c| |i]; simpl in E; try discriminate.
    exists c, val. split; [now left | exact E].
Qed.

(** where [issubclass] raises on no registered class, the scan ends as
    the specification has it *)
Lemma scan_outcome_spec H d (procs : registry) :
  (forall c v e, In (KClass c, v) procs -> H d c <> Raise e) ->
  scan_outcome H d procs
  = Ok (option_map snd (find (fun kv => is_ancestor H d (fst kv)) procs)).
Proof.
  induction procs as [|[key val] procs IH]; simpl; intros Hsafe; [reflexivity|].
  unfold is_ancestor at 1. simpl fst.
  destruct (ancestor_test H d key) as [[|]|e] eqn:E.
  - reflexivity.
  - apply IH. intros c v e Hin. apply (Hsafe c v e). now right.
  - destruct key as [c| |i]; simpl in E; try discriminate.
    exfalso. apply (Hsafe c val e); [now left | exact E].
Qed.

Lemma get_processor_unhashable H i w :
  get_processor H (Unhashable i) w = (Raise TypeError, w).
Proof. reflexivity. Qed.

(* ------------------------------------------------------------------ *)
(** *** [set_processors.__init__] *)

Lemma init_loop_clobber ks before w :
  set_processors_init_loop true ks before w =
  (Ok (snapshot (_PROCESSORS w) ks before), w).
Proof.
  revert before. induction ks as [|k ks IH]; intros before; simpl.
  - reflexivity.
  - unfold bind, read_PROCESSORS. rewrite andb_false_r. apply IH.
Qed.

Lemma init_loop_no_clobber ks before w :
  set_processors_init_loop false ks before w =
  match first_collision (_PROCESSORS w) ks with
  | Some k => (Raise (ValueError k), w)
  | None => (Ok (snapshot (_PROCESSORS w) ks before), w)
  end.
Proof.
  revert before. induction ks as [|k ks IH]; intros before; simpl.
  - reflexivity.
  - unfold bind, read_PROCESSORS. rewrite andb_true_r.
    destruct (PyDict.contains hkey_eqb k (_PROCESSORS w)); [reflexivity|].
    apply IH.
Qed.

Lemma init_clobber mapping w :
  set_processors_init mapping true w =
  (Ok {| _before := snapshot (_PROCESSORS w) (PyDict.keys mapping) [] |},
   with_PROCESSORS w (PyDict.update hkey_eqb mapping (_PROCESSORS w))).
Proof.
  unfold set_processors_init, bind at 1.
  rewrite init_loop_clobber. reflexivity.
Qed.

Lemma init_no_clobber mapping w :
  set_processors_init mapping false w =
  match first_collision (_PROCESSORS w) (PyDict.keys mapping) with
  | Some k => (Raise (ValueError k), w)
  | None =>
      (Ok {| _before := snapshot (_PROCESSORS w) (PyDict.keys mapping) [] |},
       with_PROCESSORS w (PyDict.update hkey_eqb mapping (_PROCESSORS w)))
  end.
Proof.
  unfold set_processors_init, bind at 1.
  rewrite init_loop_no_clobber.
  destruct (first_collision _ _); reflexivity.
Qed.

Lemma snapshot_keys procs ks before x :
  In x (PyDict.keys (snapshot procs ks before)) ->
  In x ks \/ In x (PyDict.keys before).
Proof.
  unfold snapshot. revert before.
  induction ks as [|k ks IH]; simpl; intros before Hin; [now right|].
  destruct (IH _ Hin) as [Hks|Hb]; [tauto|].
  apply (PyDictFacts.keys_setitem hkey_eqb) in Hb. destruct Hb; auto.
Qed.

(* ------------------------------------------------------------------ *)
(** *** [set_processors.__exit__] *)

(** Restoring touches only the keys of the record, also when a [del]
    raises half way. *)
Lemma exit_loop_frame items k w :
  ~ In k (PyDict.keys items) ->
  PyDict.get hkey_eqb k (_PROCESSORS (snd (set_processors_exit_loop items w)))
  = PyDict.get hkey_eqb k (_PROCESSORS w).
Proof.
  revert w. induction items as [|[key [v|]] items IH]; simpl; intros w Hn.
  - reflexivity.
  - unfold bind, read_PROCESSORS, write_PROCESSORS. simpl.
    rewrite IH by tauto. simpl.
    apply PyDictFacts.get_setitem_ne; [exact hkey_eqb_eq | tauto].
  - unfold bind, del_PROCESSORS, bind, read_PROCESSORS, write_PROCESSORS, raise.
    destruct (PyDict.delitem hkey_eqb key (_PROCESSORS w)) as [r|] eqn:E;
      simpl; [|reflexivity].
    rewrite IH by tauto. simpl.
    apply PyDictFacts.delitem_ne with (k := key);
      [exact hkey_eqb_eq | tauto | exact E].
Qed.

Lemma scan_class_keys_only H d (procs : registry) :
  scan_outcome H d (class_keys_only procs) = scan_outcome H d procs.
Proof.
  unfold class_keys_only.
  induction procs as [|[key val] procs IH]; simpl; [reflexivity|].
  destruct key as [c| |i]; simpl; try exact IH.
  destruct (H d c) as [[|]|e]; [reflexivity | exact IH | reflexivity].
Qed.

Lemma get_class_keys_only k (procs : registry) :
  PyDict.get hkey_eqb k procs = None ->
  PyDict.get hkey_eqb k (class_keys_only procs) = None.
Proof.
  unfold class_keys_only.
  induction procs as [|[key val] procs IH]; simpl; [reflexivity|].
  destruct (hkey_eqb k key) eqn:E; [discriminate|].
  intros Hn. destruct (is_class key); simpl; [rewrite E|]; auto.
Qed.

(* ================================================================== *)
(** ** The lookup *)
(* ================================================================== *)

(** C3, as the code has it.  For every query type [T], [get_processor]
    returns the processor registered under exactly [T] when [T] is a key;
    otherwise, when [T] is not a class, [None]; otherwise it scans the keys
    in insertion order, calling [issubclass(T, key)] on each key that is a
    class: past the keys whose test answered [False] it returns the
    processor of the first class key of which [T] is a subclass, so an
    ancestor wins over every ancestor registered after it; it raises what
    [issubclass] raises when the test of a class key raises first; and it
    returns [None] when every test answered [False].  Where [issubclass]
    raises on no registered class this is the lookup of the specification,
    [lookup_spec]. *)
Theorem get_processor_algorithm (H : hierarchy) (w : world) (T : hkey) :
  (forall p, PyDict.get hkey_eqb T (_PROCESSORS w) = Some p ->
     get_processor H (Hashable T) w = (Ok (Some p), w))
  /\ (PyDict.get hkey_eqb T (_PROCESSORS w) = None ->
      is_class T = false ->
      get_processor H (Hashable T) w = (Ok None, w))
  /\ (forall d before,
        T = KClass d ->
        PyDict.get hkey_eqb T (_PROCESSORS w) = None ->
        (forall kv, In kv before -> ancestor_test H d (fst kv) = Ok false) ->
        (forall b1 f1 after,
           _PROCESSORS w = before ++ (KClass b1, f1) :: after ->
           H d b1 = Ok true ->
           get_processor H (Hashable T) w = (Ok (Some f1), w))
        /\ (forall c v after e,
              _PROCESSORS w = before ++ (KClass c, v) :: after ->
              H d c = Raise e ->
              get_processor H (Hashable T) w = (Raise e, w))
        /\ (_PROCESSORS w = before ->
            get_processor H (Hashable T) w = (Ok None, w)))
  /\ ((forall d c v e,
         T = KClass d -> In (KClass c, v) (_PROCESSORS w) -> H d c <> Raise e) ->
      get_processor H (Hashable T) w
      = (Ok (lookup_spec H (_PROCESSORS w) T), w)).
Proof.
  split; [|split; [|split]].
  - intros p Hp. rewrite get_processor_hashable. unfold lookup_outcome.
    now rewrite Hp.
  - intros Hn Hc. rewrite get_processor_hashable. unfold lookup_outcome.
    rewrite Hn. destruct T; [discriminate | reflexivity | reflexivity].
  - intros d before -> Hn Hbefore.
    rewrite get_processor_hashable. unfold lookup_outcome. rewrite Hn.
    split; [|split].
    + intros b1 f1 after -> Hsub.
      rewrite (scan_outcome_skip H d before _ Hbefore). simpl. now rewrite Hsub.
    + intros c v after e -> Hraise.
      rewrite (scan_outcome_skip H d before _ Hbefore). simpl. now rewrite Hraise.
    + intros ->. rewrite <- (app_nil_r before).
      now rewrite (scan_outcome_skip H d before [] Hbefore).
  - intros Hsafe. rewrite get_processor_hashable.
    unfold lookup_outcome, lookup_spec.
    destruct (PyDict.get hkey_eqb T (_PROCESSORS w)); [reflexivity|].
    destruct T as [d| |i]; try reflexivity.
    rewrite scan_outcome_spec; [reflexivity|].
    intros c v e Hin. now apply (Hsafe d c v e).
Qed.

(** C3 fails as stated: [Proto] is registered before [object] and
    [issubclass(int, Proto)] raises; [object] is the first class key that
    [int] is a subclass of, but the lookup of [int] raises [TypeError]
    instead of returning the processor of [object]. *)
Lemma get_processor_raises_before_match :
  get_processor Example.issub (Hashable Example.int_)
    (Example.start [(Example.Proto, Example.g); (Example.object_, Example.h)])
  = (Raise TypeError,
     Example.start [(Example.Proto, Example.g); (Example.object_, Example.h)])
  /\ lookup_spec Example.issub
       [(Example.Proto, Example.g); (Example.object_, Example.h)] Example.int_
     = Some Example.h
  /\ result_of (get_processor Example.issub (Hashable Example.int_))
       (Example.start [(Example.Proto, Example.g); (Example.object_, Example.h)])
     <> Ok (Some Example.h).
Proof. split; [reflexivity | split; [reflexivity | discriminate]]. Qed.

(** C7, as the code has it.  [get_processor(None)] never raises: it
    returns the processor registered under [None] when there is one and
    [None] otherwise.  A query that is not hashable makes the membership
    test raise [TypeError]. *)
Theorem get_processor_bad_query (H : hierarchy) (w : world) :
  get_processor H (Hashable KNone) w
    = (Ok (PyDict.get hkey_eqb KNone (_PROCESSORS w)), w)
  /\ (forall i, get_processor H (Unhashable i) w = (Raise TypeError, w)).
Proof.
  split; [|intros i; apply get_processor_unhashable].
  rewrite get_processor_hashable. unfold lookup_outcome.
  now destruct (PyDict.get hkey_eqb KNone (_PROCESSORS w)).
Qed.

(** C7 fails as stated: on the empty registry, a query that is not
    hashable raises [TypeError] instead of returning [None]; and when
    [None] is a key, bound with [set_processors({None: n})], the membership
    test finds it and the lookup of [None] gives [n]. *)
Lemma get_processor_unhashable_raises :
  get_processor Example.issub (Unhashable 0) (Example.start [])
    = (Raise TypeError, Example.start [])
  /\ result_of (get_processor Example.issub (Unhashable 0)) (Example.start [])
     <> Ok None
  /\ result_of (get_processor Example.issub (Hashable KNone))
       (snd (set_processors_init [(KNone, Example.n)] false (Example.start [])))
     = Ok (Some Example.n).
Proof. split; [reflexivity | split; [discriminate | reflexivity]]. Qed.

(** C8, as the code has it.  For every registry and every hashable
    query [T], [get_processor(T)] leaves the module state as it was, whether
    it returns or raises, and calling it twice ends twice the same way.  It
    raises only when [T] has no binding of its own and [issubclass(T, key)]
    itself raises on a registered class [key], and then with that
    exception; so where [issubclass] raises on no registered class it
    returns a result, a processor or [None], never an exception. *)
Theorem get_processor_read_only (H : hierarchy) (w : world) (T : hkey) :
  snd (get_processor H (Hashable T) w) = w
  /\ (a <- get_processor H (Hashable T) ;;
      b <- get_processor H (Hashable T) ;;
      ret (a, b)) w
     = (match result_of (get_processor H (Hashable T)) w with
        | Ok r => Ok (r, r)
        | Raise e => Raise e
        end, w)
  /\ (forall e,
        result_of (get_processor H (Hashable T)) w = Raise e ->
        PyDict.get hkey_eqb T (_PROCESSORS w) = None
        /\ exists d c v,
             T = KClass d /\ In (KClass c, v) (_PROCESSORS w)
             /\ H d c = Raise e)
  /\ ((forall d c v e,
         T = KClass d -> In (KClass c, v) (_PROCESSORS w) -> H d c <> Raise e) ->
      exists r : option pyfunc, get_processor H (Hashable T) w = (Ok r, w)).
Proof.
  assert (Hraise : forall e,
            lookup_outcome H (_PROCESSORS w) T = Raise e ->
            PyDict.get hkey_eqb T (_PROCESSORS w) = None
            /\ exists d c v,
                 T = KClass d /\ In (KClass c, v) (_PROCESSORS w)
                 /\ H d c = Raise e).
  { intros e. unfold lookup_outcome.
    destruct (PyDict.get hkey_eqb T (_PROCESSORS w)); [discriminate|].
    destruct T as [d| |i]; try discriminate.
    intros Hs. split; [reflexivity|].
    destruct (@scan_outcome_raise H d _ e Hs) as (c & v & Hin & Hc).
    exists d, c, v. auto. }
  split; [apply get_processor_state|]. split; [|split].
  - unfold bind, result_of. rewrite get_processor_hashable. simpl.
    destruct (lookup_outcome H (_PROCESSORS w) T) as [r|e] eqn:E; [|reflexivity].
    rewrite get_processor_hashable, E. reflexivity.
  - intros e. unfold result_of. rewrite get_processor_hashable. simpl.
    apply Hraise.
  - intros Hsafe. rewrite get_processor_hashable.
    destruct (lookup_outcome H (_PROCESSORS w) T) as [r|e] eqn:E; [eauto|].
    destruct (Hraise e eq_refl) as (_ & d & c & v & HT & Hin & Hc).
    exfalso. exact (Hsafe d c v e HT Hin Hc).
Qed.

(** C8 fails as stated: with [Proto] registered, the lookup of [int]
    finds no processor and raises [TypeError] instead of returning
    [None]. *)
Lemma get_processor_miss_raises :
  get_processor Example.issub (Hashable Example.int_)
    (Example.start [(Example.Proto, Example.g)])
  = (Raise TypeError, Example.start [(Example.Proto, Example.g)])
  /\ result_of (get_processor Example.issub (Hashable Example.int_))
       (Example.start [(Example.Proto, Example.g)])
     <> Ok None.
Proof. split; [reflexivity | discriminate]. Qed.

(** C8 at work: [str] is looked up where [B1] and [int] are registered. *)
Lemma get_processor_read_only_witness :
  exists r : option pyfunc,
    get_processor Example.issub (Hashable Example.str_)
      (Example.start [(Example.B1, Example.g); (Example.int_, Example.f)])
    = (Ok r, Example.start [(Example.B1, Example.g); (Example.int_, Example.f)]).
Proof.
  apply (proj2 (proj2 (proj2
           (get_processor_read_only Example.issub
              (Example.start [(Example.B1, Example.g); (Example.int_, Example.f)])
              Example.str_)))).
  intros d c v e _ Hin Hc. simpl in Hin.
  destruct Hin as [E|[E|[]]]; injection E as <- _; simpl in Hc; discriminate Hc.
Defined.

(** C9.  Keys that are not classes do not break the lookup: a query equal
    to a registered key, class or not, gets that key's processor; on a miss
    the answer is the one the registry gives with its non-class keys left
    out, so the subclass scan skips them; and when no key is a class a
    miss returns [None]. *)
Theorem get_processor_non_type_keys (H : hierarchy) (w : world) (q : hkey) :
  (forall p, PyDict.get hkey_eqb q (_PROCESSORS w) = Some p ->
     get_processor H (Hashable q) w = (Ok (Some p), w))
  /\ (PyDict.get hkey_eqb q (_PROCESSORS w) = None ->
      result_of (get_processor H (Hashable q)) w
      = result_of (get_processor H (Hashable q))
          (with_PROCESSORS w (class_keys_only (_PROCESSORS w))))
  /\ (PyDict.get hkey_eqb q (_PROCESSORS w) = None ->
      forallb (fun kv => negb (is_class (fst kv))) (_PROCESSORS w) = true ->
      get_processor H (Hashable q) w = (Ok None, w)).
Proof.
  repeat split.
  - intros p Hp. rewrite get_processor_hashable. unfold lookup_outcome.
    now rewrite Hp.
  - intros Hn. unfold result_of. rewrite !get_processor_hashable. simpl.
    unfold lookup_outcome. rewrite Hn, (get_class_keys_only _ _ Hn).
    destruct q; try reflexivity. now rewrite scan_class_keys_only.
  - intros Hn Hall. rewrite get_processor_hashable. unfold lookup_outcome.
    rewrite Hn. destruct q as [d| |i]; try reflexivity.
    clear Hn. revert Hall. generalize (_PROCESSORS w) as procs.
    induction procs as [|[key val] procs IH]; [reflexivity|].
    simpl. intros Hall. apply andb_prop in Hall as [Hk Hrest].
    destruct key; simpl in Hk; try discriminate; simpl; now apply IH.
Qed.

(** C9 at work: a sentinel and [None] are keys, [int] is queried. *)
Lemma get_processor_non_type_keys_witness :
  get_processor Example.issub (Hashable Example.sentinel)
    (Example.start [(Example.sentinel, Example.g); (KNone, Example.n)])
  = (Ok (Some Example.g),
     Example.start [(Example.sentinel, Example.g); (KNone, Example.n)])
  /\ get_processor Example.issub (Hashable Example.int_)
       (Example.start [(Example.sentinel, Example.g); (KNone, Example.n)])
     = (Ok None,
        Example.start [(Example.sentinel, Example.g); (KNone, Example.n)]).
Proof.
  pose proof (get_processor_non_type_keys Example.issub
    (Example.start [(Example.sentinel, Example.g); (KNone, Example.n)])) as T.
  split.
  - apply (proj1 (T Example.sentinel)). reflexivity.
  - apply (proj2 (proj2 (T Example.int_))); reflexivity.
Defined.

(** C3 at work: [D] derives from [B1] and [B2]; whichever of the two was
    registered first answers for [D], and where [Proto] comes before them
    the lookup raises. *)
Lemma get_processor_algorithm_witness :
  get_processor Example.issub (Hashable Example.D)
    (Example.start [(Example.int_, Example.f); (Example.B1, Example.g);
                    (Example.B2, Example.h)])
  = (Ok (Some Example.g),
     Example.start [(Example.int_, Example.f); (Example.B1, Example.g);
                    (Example.B2, Example.h)])
  /\ get_processor Example.issub (Hashable Example.D)
       (Example.start [(Example.B2, Example.h); (Example.B1, Example.g)])
     = (Ok (Some Example.h),
        Example.start [(Example.B2, Example.h); (Example.B1, Example.g)])
  /\ get_processor Example.issub (Hashable Example.D)
       (Example.start [(Example.int_, Example.f); (Example.Proto, Example.h);
                       (Example.B1, Example.g)])
     = (Raise TypeError,
        Example.start [(Example.int_, Example.f); (Example.Proto, Example.h);
                       (Example.B1, Example.g)]).
Proof.
  assert (Hint : forall kv, In kv [(Example.int_, Example.f)] ->
                 ancestor_test Example.issub "D" (fst kv) = Ok false).
  { intros kv [<-|[]]. reflexivity. }
  split; [|split].
  - apply (proj1 (proj1 (proj2 (proj2
             (get_processor_algorithm Example.issub
                (Example.start [(Example.int_, Example.f);
                                (Example.B1, Example.g);
                                (Example.B2, Example.h)]) Example.D)))
             "D" [(Example.int_, Example.f)] eq_refl eq_refl Hint)
             "B1" Example.g [(Example.B2, Example.h)] eq_refl eq_refl).
  - apply (proj1 (proj1 (proj2 (proj2
             (get_processor_algorithm Example.issub
                (Example.start [(Example.B2, Example.h);
                                (Example.B1, Example.g)]) Example.D)))
             "D" [] eq_refl eq_refl (fun kv (F : In kv []) => match F with end))
             "B2" Example.h [(Example.B1, Example.g)] eq_refl eq_refl).
  - apply (proj1 (proj2 (proj1 (proj2 (proj2
             (get_processor_algorithm Example.issub
                (Example.start [(Example.int_, Example.f);
                                (Example.Proto, Example.h);
                                (Example.B1, Example.g)]) Example.D)))
             "D" [(Example.int_, Example.f)] eq_refl eq_refl Hint))
             "Proto" Example.h [(Example.B1, Example.g)] TypeError
             eq_refl eq_refl).
Defined.

(* ================================================================== *)
(** ** Binding: collisions *)
(* ================================================================== *)

Lemma first_collision_single (procs : registry) k :
  first_collision procs [k]
  = if PyDict.contains hkey_eqb k procs then Some k else None.
Proof. unfold first_collision. simpl. now destruct (PyDict.contains _ _ _). Qed.

(** C2.  When [T] is bound to [f1], [set_processors({T: f2})] without
    clobber raises the [ValueError] that names [T] and changes nothing, so
    the lookup of [T] still gives [f1]; with [clobber=True] it returns and
    the lookup of [T] gives [f2]. *)
Theorem collision_law (H : hierarchy) (w : world) (T : hkey) (f1 f2 : pyfunc) :
  PyDict.get hkey_eqb T (_PROCESSORS w) = Some f1 ->
  set_processors_init [(T, f2)] false w = (Raise (ValueError T), w)
  /\ result_of (get_processor H (Hashable T))
       (snd (set_processors_init [(T, f2)] false w)) = Ok (Some f1)
  /\ (exists self, result_of (set_processors_init [(T, f2)] true) w = Ok self)
  /\ result_of (get_processor H (Hashable T))
       (snd (set_processors_init [(T, f2)] true w)) = Ok (Some f2).
Proof.
  intros Hget.
  assert (Hraise : set_processors_init [(T, f2)] false w
                   = (Raise (ValueError T), w)).
  { rewrite init_no_clobber. simpl PyDict.keys. rewrite first_collision_single.
    unfold PyDict.contains. now rewrite Hget. }
  repeat split.
  - exact Hraise.
  - rewrite Hraise. unfold result_of. rewrite get_processor_hashable. simpl.
    unfold lookup_outcome. now rewrite Hget.
  - unfold result_of. rewrite init_clobber. eexists. reflexivity.
  - rewrite init_clobber. unfold result_of. rewrite get_processor_hashable.
    simpl. unfold lookup_outcome, PyDict.update. simpl.
    now rewrite PyDictFacts.get_setitem_eq by exact hkey_eqb_eq.
Qed.

Lemma collision_law_witness :
  set_processors_init [(Example.int_, Example.f)] false
    (Example.start [(Example.int_, Example.g)])
  = (Raise (ValueError Example.int_), Example.start [(Example.int_, Example.g)])
  /\ result_of (get_processor Example.issub (Hashable Example.int_))
       (snd (set_processors_init [(Example.int_, Example.f)] true
               (Example.start [(Example.int_, Example.g)])))
     = Ok (Some Example.f).
Proof.
  pose proof (collision_law Example.issub
    (Example.start [(Example.int_, Example.g)]) Example.int_
    (f1 := Example.g) Example.f eq_refl) as T.
  split; [exact (proj1 T) | exact (proj2 (proj2 (proj2 T)))].
Defined.

(** C4, as the code has it.  A bind without clobber checks every key of
    the batch against the registry before it applies any: it raises the
    [ValueError] of the first key of the batch that is registered, and then
    the registry is as it was; when no key is registered it applies the
    whole batch. *)
Theorem batch_collision_atomic (mapping : registry) (w : world) :
  match first_collision (_PROCESSORS w) (PyDict.keys mapping) with
  | Some k => set_processors_init mapping false w = (Raise (ValueError k), w)
  | None =>
      exists self,
        set_processors_init mapping false w
        = (Ok self,
           with_PROCESSORS w (PyDict.update hkey_eqb mapping (_PROCESSORS w)))
  end
  /\ (forall e w', set_processors_init mapping false w = (Raise e, w') -> w' = w).
Proof.
  rewrite init_no_clobber.
  destruct (first_collision (_PROCESSORS w) (PyDict.keys mapping)) as [k|].
  - split; [reflexivity|]. now intros e w' [= _ <-].
  - split; [eexists; reflexivity | discriminate].
Qed.

(** C4 fails as stated: [B2] is registered and the batch is [B1] then
    [B2]; the bind raises for [B2] and [B1], processed before it, is not in
    the registry. *)
Lemma batch_collision_applies_nothing :
  set_processors_init [(Example.B1, Example.f); (Example.B2, Example.g)] false
    (Example.start [(Example.B2, Example.h)])
  = (Raise (ValueError Example.B2), Example.start [(Example.B2, Example.h)])
  /\ PyDict.get hkey_eqb Example.B1
       (procs_after
          (set_processors_init
             [(Example.B1, Example.f); (Example.B2, Example.g)] false)
          (Example.start [(Example.B2, Example.h)]))
     = None
  /\ PyDict.get hkey_eqb Example.B1
       (procs_after
          (set_processors_init
             [(Example.B1, Example.f); (Example.B2, Example.g)] false)
          (Example.start [(Example.B2, Example.h)]))
     <> Some Example.f.
Proof. split; [reflexivity | split; [reflexivity | discriminate]]. Qed.

Lemma batch_collision_atomic_witness :
  snd (set_processors_init
         [(Example.B1, Example.f); (Example.B2, Example.g)] false
         (Example.start [(Example.B2, Example.h)]))
  = Example.start [(Example.B2, Example.h)].
Proof.
  apply (proj2 (batch_collision_atomic
                  [(Example.B1, Example.f); (Example.B2, Example.g)]
                  (Example.start [(Example.B2, Example.h)]))
           (ValueError Example.B2)).
  reflexivity.
Defined.

(* ================================================================== *)
(** ** Binding: frame and restore *)
(* ================================================================== *)

(** [__init__] leaves the keys outside the mapping alone, whether it
    returns or raises. *)
Lemma init_frame mapping clobber w k :
  ~ In k (PyDict.keys mapping) ->
  PyDict.get hkey_eqb k (procs_after (set_processors_init mapping clobber) w)
  = PyDict.get hkey_eqb k (_PROCESSORS w).
Proof.
  intros Hn. unfold procs_after. destruct clobber.
  - rewrite init_clobber. simpl.
    now apply PyDictFacts.get_update_notin; [exact hkey_eqb_eq|].
  - rewrite init_no_clobber.
    destruct (first_collision _ _); simpl; [reflexivity|].
    now apply PyDictFacts.get_update_notin; [exact hkey_eqb_eq|].
Qed.

(** the record of an instance holds keys of the mapping only *)
Lemma init_before_keys mapping clobber w self w1 x :
  set_processors_init mapping clobber w = (Ok self, w1) ->
  In x (PyDict.keys (_before self)) -> In x (PyDict.keys mapping).
Proof.
  destruct clobber.
  - rewrite init_clobber. intros [= <- _]. simpl. intros Hin.
    apply snapshot_keys in Hin. destruct Hin as [Hin|[]]. exact Hin.
  - rewrite init_no_clobber. destruct (first_collision _ _); [discriminate|].
    intros [= <- _]. simpl. intros Hin.
    apply snapshot_keys in Hin. destruct Hin as [Hin|[]]. exact Hin.
Qed.

(** C10.  Applying [set_processors(mapping)], and reversing it later from
    any state, leave the binding of every key outside the mapping as it
    was; with the empty mapping both steps return without an exception and
    leave the whole module state as it was. *)
Theorem set_processors_frame (clobber : bool) (w : world) :
  (forall (mapping : registry) (k : hkey),
     ~ In k (PyDict.keys mapping) ->
     PyDict.get hkey_eqb k
       (procs_after (set_processors_init mapping clobber) w)
     = PyDict.get hkey_eqb k (_PROCESSORS w)
     /\ (forall self w1,
           set_processors_init mapping clobber w = (Ok self, w1) ->
           forall w2,
             PyDict.get hkey_eqb k (procs_after (set_processors_exit self) w2)
             = PyDict.get hkey_eqb k (_PROCESSORS w2)))
  /\ (exists self,
        set_processors_init [] clobber w = (Ok self, w)
        /\ forall w2, set_processors_exit self w2 = (Ok tt, w2)).
Proof.
  split.
  - intros mapping k Hn. split; [now apply init_frame|].
    intros self w1 Hinit w2. unfold procs_after, set_processors_exit.
    apply exit_loop_frame. intros Hin. apply Hn.
    eapply init_before_keys; eassumption.
  - exists {| _before := [] |}. split; [|reflexivity].
    destruct clobber.
    + rewrite init_clobber. simpl. unfold PyDict.update. simpl.
      now rewrite with_PROCESSORS_same.
    + rewrite init_no_clobber. simpl. unfold PyDict.update. simpl.
      now rewrite with_PROCESSORS_same.
Qed.

(** C10 at work: binding [int] and restoring leave [str] bound to [h]. *)
Lemma set_processors_frame_witness :
  PyDict.get hkey_eqb Example.str_
    (procs_after
       (with_set_processors [(Example.int_, Example.f)] true Example.pass)
       (Example.start [(Example.str_, Example.h); (Example.int_, Example.g)]))
  = Some Example.h
  /\ PyDict.get hkey_eqb Example.str_
       (procs_after (set_processors_init [(Example.int_, Example.f)] true)
          (Example.start [(Example.str_, Example.h); (Example.int_, Example.g)]))
     = PyDict.get hkey_eqb Example.str_
         (_PROCESSORS
            (Example.start
               [(Example.str_, Example.h); (Example.int_, Example.g)])).
Proof.
  split; [reflexivity|].
  apply (proj1 (set_processors_frame true
                  (Example.start
                     [(Example.str_, Example.h); (Example.int_, Example.g)]))
           [(Example.int_, Example.f)] Example.str_).
  simpl. intros [E|[]]. discriminate E.
Defined.

(* ------------------------------------------------------------------ *)
(** *** the scoped bind of one key *)

Lemma with_set_processors_single {A} (body : M A) w T f2 :
  with_set_processors [(T, f2)] true body w =
  match body (with_PROCESSORS w (PyDict.setitem hkey_eqb T f2 (_PROCESSORS w))) with
  | (r, w2) =>
      match set_processors_exit
              {| _before := [(T, PyDict.get hkey_eqb T (_PROCESSORS w))] |} w2
      with
      | (Ok _, w3) => (r, w3)
      | (Raise e, w3) => (Raise e, w3)
      end
  end.
Proof.
  unfold with_set_processors, bind at 1. rewrite init_clobber. reflexivity.
Qed.

Lemma exit_single_restore T f1 w2 :
  set_processors_exit {| _before := [(T, Some f1)] |} w2
  = (Ok tt, with_PROCESSORS w2 (PyDict.setitem hkey_eqb T f1 (_PROCESSORS w2))).
Proof. reflexivity. Qed.

Lemma exit_single_delete T w2 d :
  PyDict.delitem hkey_eqb T (_PROCESSORS w2) = Some d ->
  set_processors_exit {| _before := [(T, None)] |} w2
  = (Ok tt, with_PROCESSORS w2 d).
Proof.
  intros E. unfold set_processors_exit. simpl.
  unfold bind, del_PROCESSORS, bind, read_PROCESSORS. now rewrite E.
Qed.

Lemma exit_single_missing T w2 :
  PyDict.delitem hkey_eqb T (_PROCESSORS w2) = None ->
  set_processors_exit {| _before := [(T, None)] |} w2
  = (Raise (KeyError T), w2).
Proof.
  intros E. unfold set_processors_exit. simpl.
  unfold bind, del_PROCESSORS, bind, read_PROCESSORS. now rewrite E.
Qed.

(** Without a binding of its own, [T] can only get the processor of a
    registered class that it is a subclass of. *)
Lemma lookup_miss_sound H w T p :
  PyDict.get hkey_eqb T (_PROCESSORS w) = None ->
  result_of (get_processor H (Hashable T)) w = Ok (Some p) ->
  exists d c,
    T = KClass d /\ In (KClass c, p) (_PROCESSORS w) /\ H d c = Ok true.
Proof.
  intros Hn. unfold result_of. rewrite get_processor_hashable. simpl.
  unfold lookup_outcome. rewrite Hn.
  destruct T as [d| |i]; try discriminate.
  intros Hs. apply scan_outcome_some in Hs as (c & Hin & Hc).
  exists d, c. auto.
Qed.

(** Without a binding of its own and without a registered ancestor, [T]
    gets [None]. *)
Lemma lookup_miss_absent H w T :
  PyDict.get hkey_eqb T (_PROCESSORS w) = None ->
  (forall d c v,
     T = KClass d -> In (KClass c, v) (_PROCESSORS w) -> H d c = Ok false) ->
  result_of (get_processor H (Hashable T)) w = Ok None.
Proof.
  intros Hn Hall. unfold result_of. rewrite get_processor_hashable. simpl.
  unfold lookup_outcome. rewrite Hn.
  destruct T as [d| |i]; try reflexivity.
  rewrite <- (app_nil_r (_PROCESSORS w)).
  rewrite scan_outcome_skip; [reflexivity|].
  intros [key val] Hin. destruct key as [c| |j]; try reflexivity.
  simpl. now apply (Hall d c val).
Qed.

(** C1, as the code has it.  Entering [with set_processors({T: f2},
    clobber=True)] makes the lookup of [T] give [f2].  When [T] was bound
    to [f1], after the exit the lookup of [T] gives [f1] again, whatever the
    body did and whether it returned or raised, the [with] statement ends
    as the body ended, and a body that left the registry alone finds the
    whole registry, order included, as before the bind.  When [T] was not
    a key, then for every body, returning or raising, [T] is not a key after
    the exit, so the lookup of [T] is left to the scan: a processor it
    returns is the one of a registered class that [T] is a subclass of, and
    it returns [None] when [T] is a subclass of no registered class; the
    [with] statement ends as the body ended when the body left [T]
    registered. *)
Theorem scoped_restore (H : hierarchy) (A : Type) (body : M A) (w : world)
    (T : hkey) (f2 : pyfunc) :
  (exists self,
     set_processors_init [(T, f2)] true w
     = (Ok self,
        with_PROCESSORS w (PyDict.setitem hkey_eqb T f2 (_PROCESSORS w))))
  /\ result_of (get_processor H (Hashable T))
       (with_PROCESSORS w (PyDict.setitem hkey_eqb T f2 (_PROCESSORS w)))
     = Ok (Some f2)
  /\ (forall f1,
        PyDict.get hkey_eqb T (_PROCESSORS w) = Some f1 ->
        exists w3,
          with_set_processors [(T, f2)] true body w
          = (result_of body
               (with_PROCESSORS w
                  (PyDict.setitem hkey_eqb T f2 (_PROCESSORS w))), w3)
          /\ get_processor H (Hashable T) w3 = (Ok (Some f1), w3)
          /\ (procs_after body
                (with_PROCESSORS w
                   (PyDict.setitem hkey_eqb T f2 (_PROCESSORS w)))
              = PyDict.setitem hkey_eqb T f2 (_PROCESSORS w) ->
              _PROCESSORS w3 = _PROCESSORS w))
  /\ (PyDict.get hkey_eqb T (_PROCESSORS w) = None ->
      PyDict.wf
        (procs_after body
           (with_PROCESSORS w (PyDict.setitem hkey_eqb T f2 (_PROCESSORS w)))) ->
      PyDict.get hkey_eqb T
        (procs_after (with_set_processors [(T, f2)] true body) w) = None
      /\ (forall p,
            result_of (get_processor H (Hashable T))
              (snd (with_set_processors [(T, f2)] true body w)) = Ok (Some p) ->
            exists d c,
              T = KClass d
              /\ In (KClass c, p)
                    (procs_after (with_set_processors [(T, f2)] true body) w)
              /\ H d c = Ok true)
      /\ ((forall d c v,
             T = KClass d ->
             In (KClass c, v)
                (procs_after (with_set_processors [(T, f2)] true body) w) ->
             H d c = Ok false) ->
          result_of (get_processor H (Hashable T))
            (snd (with_set_processors [(T, f2)] true body w)) = Ok None)
      /\ (PyDict.get hkey_eqb T
            (procs_after body
               (with_PROCESSORS w
                  (PyDict.setitem hkey_eqb T f2 (_PROCESSORS w)))) <> None ->
          result_of (with_set_processors [(T, f2)] true body) w
          = result_of body
              (with_PROCESSORS w
                 (PyDict.setitem hkey_eqb T f2 (_PROCESSORS w))))).
Proof.
  split; [|split; [|split]].
  - rewrite init_clobber. eexists. reflexivity.
  - unfold result_of. rewrite get_processor_hashable. simpl.
    unfold lookup_outcome.
    now rewrite PyDictFacts.get_setitem_eq by exact hkey_eqb_eq.
  - intros f1 Hget. rewrite with_set_processors_single, Hget.
    unfold result_of, procs_after.
    destruct (body _) as [r w2]. rewrite exit_single_restore.
    eexists. split; [reflexivity|]. split.
    + rewrite get_processor_hashable. simpl. unfold lookup_outcome.
      now rewrite PyDictFacts.get_setitem_eq by exact hkey_eqb_eq.
    + simpl. intros ->.
      now apply PyDictFacts.setitem_present.
  - intros Hget Hwf.
    assert (Hgone : PyDict.get hkey_eqb T
                      (procs_after (with_set_processors [(T, f2)] true body) w)
                    = None
                    /\ (PyDict.get hkey_eqb T
                          (procs_after body
                             (with_PROCESSORS w
                                (PyDict.setitem hkey_eqb T f2 (_PROCESSORS w))))
                        <> None ->
                        result_of (with_set_processors [(T, f2)] true body) w
                        = result_of body
                            (with_PROCESSORS w
                               (PyDict.setitem hkey_eqb T f2 (_PROCESSORS w))))).
    { unfold procs_after, result_of in *.
      rewrite with_set_processors_single, Hget.
      destruct (body _) as [r w2]. simpl in Hwf. simpl.
      destruct (PyDict.delitem hkey_eqb T (_PROCESSORS w2)) as [d|] eqn:D.
      - rewrite (exit_single_delete _ _ D). simpl. split; [|reflexivity].
        eapply PyDictFacts.get_delitem; [exact hkey_eqb_eq | exact Hwf | exact D].
      - rewrite (exit_single_missing _ _ D). simpl.
        apply PyDictFacts.delitem_missing in D. split; [exact D|].
        intros Hk. contradiction. }
    destruct Hgone as [Hgone Hends]. unfold procs_after in *.
    split; [exact Hgone|]. split; [|split; [|exact Hends]].
    + intros p Hp. eapply lookup_miss_sound; eassumption.
    + intros Hall. apply lookup_miss_absent; assumption.
Qed.

(** C1 fails as stated: [object] is registered and [int] is not; after a
    scoped bind of [int] the lookup of [int] gives the processor of
    [object], not [None]. *)
Lemma scoped_restore_not_absent :
  PyDict.get hkey_eqb Example.int_
    (_PROCESSORS (Example.start [(Example.object_, Example.h)])) = None
  /\ result_of (get_processor Example.issub (Hashable Example.int_))
       (snd (with_set_processors [(Example.int_, Example.g)] true Example.pass
               (Example.start [(Example.object_, Example.h)])))
     = Ok (Some Example.h)
  /\ result_of (get_processor Example.issub (Hashable Example.int_))
       (snd (with_set_processors [(Example.int_, Example.g)] true Example.pass
               (Example.start [(Example.object_, Example.h)])))
     <> Ok None.
Proof. split; [reflexivity | split; [reflexivity | discriminate]]. Qed.

(** C1 at work: [int] is bound to [g], the body raises, and [g] is back;
    and from the empty registry, with a body that registers [str], [int] is
    looked up after the exit. *)
Lemma scoped_restore_witness :
  (exists w3,
     with_set_processors [(Example.int_, Example.f)] true Example.boom
       (Example.start [(Example.int_, Example.g)])
     = (Raise (KeyError Example.sentinel), w3)
     /\ get_processor Example.issub (Hashable Example.int_) w3
        = (Ok (Some Example.g), w3))
  /\ result_of (get_processor Example.issub (Hashable Example.int_))
       (snd (with_set_processors [(Example.int_, Example.g)] true
               (set_processors_init [(Example.str_, Example.h)] false)
               (Example.start [])))
     = Ok None.
Proof.
  split.
  - destruct (proj1 (proj2 (proj2
                (scoped_restore Example.issub Example.boom
                   (Example.start [(Example.int_, Example.g)])
                   Example.int_ Example.f))) Example.g eq_refl)
      as (w3 & Hwith & Hlookup & _).
    exists w3. split; [exact Hwith | exact Hlookup].
  - assert (Hwf : PyDict.wf
              (procs_after
                 (set_processors_init [(Example.str_, Example.h)] false)
                 (with_PROCESSORS (Example.start [])
                    (PyDict.setitem hkey_eqb Example.int_ Example.g
                       (_PROCESSORS (Example.start [])))))).
    { unfold PyDict.wf. simpl. repeat constructor; simpl; intuition discriminate. }
    apply (proj1 (proj2 (proj2
             (proj2 (proj2 (proj2
                (scoped_restore Example.issub
                   (set_processors_init [(Example.str_, Example.h)] false)
                   (Example.start []) Example.int_ Example.g)))
                eq_refl Hwf)))).
    intros d c v [= <-]. simpl. intros [[= <- _]|[]]. reflexivity.
Defined.

(* ================================================================== *)
(** ** The decorator *)
(* ================================================================== *)

(** A non-clobbering bind of the single pair [(key, func)]. *)
Lemma init_single_no_clobber key func w :
  set_processors_init [(key, func)] false w =
  match PyDict.get hkey_eqb key (_PROCESSORS w) with
  | Some _ => (Raise (ValueError key), w)
  | None =>
      (Ok {| _before := [(key, None)] |},
       with_PROCESSORS w (_PROCESSORS w ++ [(key, func)]))
  end.
Proof.
  rewrite init_no_clobber. simpl PyDict.keys. rewrite first_collision_single.
  unfold PyDict.contains.
  destruct (PyDict.get hkey_eqb key (_PROCESSORS w)) eqn:E; [reflexivity|].
  unfold PyDict.update, snapshot. simpl. rewrite E.
  now rewrite (PyDictFacts.setitem_absent _ _ _ _ E).
Qed.

Lemma processor_first_hint func w name key rest :
  PyDict.pop String.eqb "return" (get_type_hints func) = (name, key) :: rest ->
  processor func w =
  match key with
  | KNone => (Ok func, w)
  | _ => (set_processors_init [(key, func)] false ;;; ret func) w
  end.
Proof.
  intros Hpop. unfold processor. rewrite Hpop. simpl. now destruct key.
Qed.

Lemma processor_bound func w name key rest :
  PyDict.pop String.eqb "return" (get_type_hints func) = (name, key) :: rest ->
  key <> KNone ->
  processor func w =
  match PyDict.get hkey_eqb key (_PROCESSORS w) with
  | Some _ => (Raise (ValueError key), w)
  | None => (Ok func, with_PROCESSORS w (_PROCESSORS w ++ [(key, func)]))
  end.
Proof.
  intros Hpop Hkey. rewrite (@processor_first_hint _ w _ _ _ Hpop).
  assert (E : (set_processors_init [(key, func)] false ;;; ret func) w =
              match PyDict.get hkey_eqb key (_PROCESSORS w) with
              | Some _ => (Raise (ValueError key), w)
              | None => (Ok func, with_PROCESSORS w (_PROCESSORS w ++ [(key, func)]))
              end).
  { unfold bind. rewrite init_single_no_clobber.
    now destruct (PyDict.get hkey_eqb key (_PROCESSORS w)). }
  destruct key; [exact E | contradiction | exact E].
Qed.

Lemma get_snoc_absent k (v : pyfunc) (d : registry) :
  PyDict.get hkey_eqb k d = None -> PyDict.get hkey_eqb k (d ++ [(k, v)]) = Some v.
Proof.
  intros E. rewrite <- (PyDictFacts.setitem_absent _ _ _ _ E).
  now apply PyDictFacts.get_setitem_eq, hkey_eqb_eq.
Qed.

(** C5.  When the hints of [func] without ["return"] start with the
    parameter [name] of type [key]: for [key = None] the decorator returns
    [func] and changes nothing; otherwise it binds [key] to [func] without
    clobber and for good, returning [func] itself when [key] was free (the
    binding goes last in the registry) and raising the [ValueError] of [key]
    when [key] was taken.  So decorating a second function for the same
    type raises that error. *)
Theorem processor_registers (func : pyfunc) (w : world) (name : string)
    (key : hkey) (rest : PyDict.dict string hkey) :
  PyDict.pop String.eqb "return" (get_type_hints func) = (name, key) :: rest ->
  (key = KNone -> processor func w = (Ok func, w))
  /\ (key <> KNone ->
      forall f0, PyDict.get hkey_eqb key (_PROCESSORS w) = Some f0 ->
      processor func w = (Raise (ValueError key), w))
  /\ (key <> KNone ->
      PyDict.get hkey_eqb key (_PROCESSORS w) = None ->
      processor func w
      = (Ok func, with_PROCESSORS w (_PROCESSORS w ++ [(key, func)]))
      /\ forall func2 name2 rest2,
           PyDict.pop String.eqb "return" (get_type_hints func2)
           = (name2, key) :: rest2 ->
           (processor func ;;; processor func2) w
           = (Raise (ValueError key),
              with_PROCESSORS w (_PROCESSORS w ++ [(key, func)]))).
Proof.
  intros Hpop. split; [|split].
  - intros ->. now rewrite (@processor_first_hint _ w _ _ _ Hpop).
  - intros Hkey f0 Hget. rewrite (@processor_bound _ w _ _ _ Hpop Hkey). now rewrite Hget.
  - intros Hkey Hget.
    assert (E : processor func w
                = (Ok func, with_PROCESSORS w (_PROCESSORS w ++ [(key, func)]))).
    { rewrite (@processor_bound _ w _ _ _ Hpop Hkey). now rewrite Hget. }
    split; [exact E|].
    intros func2 name2 rest2 Hpop2. unfold bind. rewrite E.
    rewrite (@processor_bound _ _ _ _ _ Hpop2 Hkey). simpl.
    now rewrite (@get_snoc_absent _ _ _ Hget).
Qed.

(** C5 at work: [f(x: int) -> str] is registered under [int]; decorating
    [g(x: int)] after it raises. *)
Lemma processor_registers_witness :
  processor Example.f (Example.start [(Example.str_, Example.h)])
  = (Ok Example.f,
     Example.start [(Example.str_, Example.h); (Example.int_, Example.f)])
  /\ (processor Example.f ;;; processor Example.g)
       (Example.start [(Example.str_, Example.h)])
     = (Raise (ValueError Example.int_),
        Example.start [(Example.str_, Example.h); (Example.int_, Example.f)]).
Proof.
  assert (Hk : Example.int_ <> KNone) by discriminate.
  pose proof (proj2 (proj2
    (processor_registers Example.f (Example.start [(Example.str_, Example.h)])
       (name := "x") (key := Example.int_) (rest := []) eq_refl))
    Hk eq_refl) as [T1 T2].
  split; [exact T1|].
  exact (T2 Example.g "x" [] eq_refl).
Defined.

Lemma pop_return_only (hints : PyDict.dict string hkey) :
  PyDict.wf hints ->
  (forall name, In name (PyDict.keys hints) -> name = "return") ->
  PyDict.pop String.eqb "return" hints = [].
Proof.
  unfold PyDict.wf, PyDict.pop. intros Hwf Hall.
  destruct hints as [|[n1 t1] hints]; [reflexivity|].
  assert (E1 : n1 = "return") by (apply Hall; now left). subst n1.
  simpl. destruct hints as [|[n2 t2] hints]; [reflexivity|].
  assert (E2 : n2 = "return") by (apply Hall; right; now left). subst n2.
  simpl in Hwf. inversion Hwf as [|? ? Hnotin _]. exfalso. apply Hnotin. now left.
Qed.

(** C6.  When the hints of [func] hold no parameter, that is, they are
    empty or hold ["return"] alone, the decorator emits the warning,
    returns [func] itself and leaves the registry as it was. *)
Theorem processor_skips (func : pyfunc) (w : world) :
  PyDict.wf (get_type_hints func) ->
  (forall name, In name (PyDict.keys (get_type_hints func)) -> name = "return") ->
  processor func w
  = (Ok func,
     {| _PROCESSORS := _PROCESSORS w;
        emitted := emitted w ++ [UserWarning func no_hints_text] |}).
Proof.
  intros Hwf Hall. unfold processor.
  now rewrite (@pop_return_only _ Hwf Hall).
Qed.

(** C6 at work: [q() -> int] has a return annotation only, [p(x)] has
    no annotation. *)
Lemma processor_skips_witness :
  processor Example.q (Example.start [(Example.str_, Example.h)])
  = (Ok Example.q,
     {| _PROCESSORS := [(Example.str_, Example.h)];
        emitted := [UserWarning Example.q no_hints_text] |})
  /\ processor Example.p (Example.start [(Example.str_, Example.h)])
     = (Ok Example.p,
        {| _PROCESSORS := [(Example.str_, Example.h)];
           emitted := [UserWarning Example.p no_hints_text] |}).
Proof.
  split.
  - apply (processor_skips Example.q
             (Example.start [(Example.str_, Example.h)])).
    + unfold PyDict.wf. simpl. constructor; [intros []|constructor].
    + simpl. intros name [E|[]]. now subst.
  - apply (processor_skips Example.p
             (Example.start [(Example.str_, Example.h)])).
    + unfold PyDict.wf. simpl. constructor.
    + simpl. intros name [].
Defined.

(* ================================================================== *)
(** ** More on dictionaries: order, commutation, uniqueness of keys *)
(* ================================================================== *)

Module PyDictOrder.
Import PyDict.
Section Order.
Variables K V : Type.
Variable eqb : K -> K -> bool.
Hypothesis eqb_eq : forall a b, eqb a b = true <-> a = b.

Lemma get_in k v (d : dict K V) : get eqb k d = Some v -> In (k, v) d.
Proof.
  induction d as [|[k' v'] d IH]; simpl; [discriminate|].
  destruct (eqb k k') eqn:E.
  - apply eqb_eq in E. subst. intros [= ->]. now left.
  - intros Hg. right. now apply IH.
Qed.

Lemma get_some_in_keys k v (d : dict K V) :
  get eqb k d = Some v -> In k (keys d).
Proof. intros Hg. apply get_in in Hg. now apply (in_map fst) in Hg. Qed.

Lemma setitem_same k v (d : dict K V) :
  get eqb k d = Some v -> setitem eqb k v d = d.
Proof.
  induction d as [|[k' v'] d IH]; simpl; [discriminate|].
  destruct (eqb k k'); [now intros [= ->]|].
  intros Hg. now rewrite IH.
Qed.

Lemma keys_setitem_present k v v0 (d : dict K V) :
  get eqb k d = Some v0 -> keys (setitem eqb k v d) = keys d.
Proof.
  induction d as [|[k' v'] d IH]; simpl; [discriminate|].
  destruct (eqb k k'); simpl; [reflexivity|].
  intros Hg. now rewrite IH.
Qed.

Lemma setitem_comm k k' v v' v0 (d : dict K V) :
  k <> k' -> get eqb k d = Some v0 ->
  setitem eqb k v (setitem eqb k' v' d) = setitem eqb k' v' (setitem eqb k v d).
Proof.
  intros Hne. induction d as [|[k0 w0] d IH]; simpl; [discriminate|].
  destruct (eqb k k0) eqn:E, (eqb k' k0) eqn:E'; simpl; rewrite ?E, ?E'.
  - apply eqb_eq in E, E'. congruence.
  - reflexivity.
  - reflexivity.
  - intros Hg. now rewrite IH.
Qed.

Lemma delitem_setitem_ne k k' v (d r : dict K V) :
  k <> k' -> delitem eqb k d = Some r ->
  delitem eqb k (setitem eqb k' v d) = Some (setitem eqb k' v r).
Proof.
  intros Hne. revert r. induction d as [|[k0 w0] d IH]; simpl; [discriminate|].
  intros r. destruct (eqb k k0) eqn:E.
  - intros [= <-]. apply eqb_eq in E. subst k0.
    rewrite (PyDictFacts.eqb_neq eqb eqb_eq (not_eq_sym Hne)). simpl.
    now rewrite (PyDictFacts.eqb_refl eqb eqb_eq).
  - destruct (delitem eqb k d) as [r'|] eqn:D; [|discriminate].
    intros [= <-]. destruct (eqb k' k0) eqn:E'; simpl; rewrite E.
    + now rewrite D, E'.
    + now rewrite (IH r' eq_refl), E'.
Qed.

Lemma setitem_update k v v0 (m d : dict K V) :
  ~ In k (keys m) -> get eqb k d = Some v0 ->
  setitem eqb k v (update eqb m d) = update eqb m (setitem eqb k v d).
Proof.
  unfold update. revert d v0.
  induction m as [|[k' v'] m IH]; simpl; intros d v0 Hn Hg; [reflexivity|].
  assert (Hne : k' <> k) by tauto.
  rewrite IH with (v0 := v0).
  - f_equal. apply setitem_comm with (v0 := v0); [congruence | exact Hg].
  - tauto.
  - now rewrite (PyDictFacts.get_setitem_ne eqb eqb_eq).
Qed.

Lemma delitem_update k (m d r : dict K V) :
  ~ In k (keys m) -> delitem eqb k d = Some r ->
  delitem eqb k (update eqb m d) = Some (update eqb m r).
Proof.
  unfold update. revert d r.
  induction m as [|[k' v'] m IH]; simpl; intros d r Hn Hd; [exact Hd|].
  apply IH; [tauto|]. apply delitem_setitem_ne; [|exact Hd].
  intros ->. tauto.
Qed.

Lemma get_update k (m d : dict K V) :
  NoDup (keys m) ->
  get eqb k (update eqb m d)
  = match get eqb k m with Some v => Some v | None => get eqb k d end.
Proof.
  revert d. induction m as [|[k' v'] m IH]; simpl; intros d Hnd; [reflexivity|].
  inversion Hnd as [|? ? Hnotin Hnd']; subst.
  change (get eqb k (update eqb m (setitem eqb k' v' d)) =
          match (if eqb k k' then Some v' else get eqb k m) with
          | Some v => Some v | None => get eqb k d end).
  destruct (eqb k k') eqn:E.
  - apply eqb_eq in E. subst k'.
    rewrite (PyDictFacts.get_update_notin eqb eqb_eq) by exact Hnotin.
    apply (PyDictFacts.get_setitem_eq eqb eqb_eq).
  - rewrite (IH _ Hnd'). destruct (get eqb k m); [reflexivity|].
    apply (PyDictFacts.get_setitem_ne eqb eqb_eq). intros ->.
    now rewrite (PyDictFacts.eqb_refl eqb eqb_eq) in E.
Qed.

Lemma contains_setitem_ne k k' v (d : dict K V) :
  k <> k' -> contains eqb k' (setitem eqb k v d) = contains eqb k' d.
Proof.
  intros Hne. unfold contains.
  now rewrite (PyDictFacts.get_setitem_ne eqb eqb_eq).
Qed.

Lemma keys_update (m d : dict K V) :
  NoDup (keys m) ->
  keys (update eqb m d)
  = keys d ++ filter (fun k => negb (contains eqb k d)) (keys m).
Proof.
  revert d. induction m as [|[k v] m IH]; simpl; intros d Hnd.
  - now rewrite app_nil_r.
  - inversion Hnd as [|? ? Hnotin Hnd']; subst.
    change (keys (update eqb m (setitem eqb k v d)) =
            keys d ++ (if negb (contains eqb k d)
                       then k :: filter (fun k0 => negb (contains eqb k0 d)) (keys m)
                       else filter (fun k0 => negb (contains eqb k0 d)) (keys m))).
    rewrite (IH _ Hnd').
    assert (Hf : filter (fun k0 => negb (contains eqb k0 (setitem eqb k v d))) (keys m)
                 = filter (fun k0 => negb (contains eqb k0 d)) (keys m)).
    { apply filter_ext_in. intros k0 Hin.
      rewrite contains_setitem_ne; [reflexivity|]. intros ->. contradiction. }
    rewrite Hf. unfold contains at 2.
    destruct (get eqb k d) as [v0|] eqn:G; simpl.
    + now erewrite keys_setitem_present by exact G.
    + rewrite PyDictFacts.setitem_absent by exact G.
      unfold keys at 1. rewrite map_app. simpl. now rewrite <- app_assoc.
Qed.

Lemma keys_delitem k (d r : dict K V) x :
  delitem eqb k d = Some r -> In x (keys r) -> In x (keys d).
Proof.
  revert r. induction d as [|[k0 v0] d IH]; simpl; [discriminate|].
  intros r. destruct (eqb k k0).
  - intros [= <-]. now right.
  - destruct (delitem eqb k d) as [r'|]; [|discriminate].
    intros [= <-]. simpl. intros [->|Hin]; [now left|]. right. now apply (IH r').
Qed.

Lemma get_none_notin k (d : dict K V) : get eqb k d = None -> ~ In k (keys d).
Proof.
  induction d as [|[k' v'] d IH]; simpl; [tauto|].
  destruct (eqb k k') eqn:E; [discriminate|].
  intros Hg [->|Hin]; [|now apply IH].
  now rewrite (PyDictFacts.eqb_refl eqb eqb_eq) in E.
Qed.

Lemma wf_setitem k v (d : dict K V) : wf d -> wf (setitem eqb k v d).
Proof.
  unfold wf. destruct (get eqb k d) as [v0|] eqn:G.
  - now erewrite keys_setitem_present by exact G.
  - rewrite PyDictFacts.setitem_absent by exact G. unfold keys.
    rewrite map_app. simpl. intros Hnd.
    apply NoDup_app; [exact Hnd | constructor; [intros []|constructor] |].
    intros x Hin [->|[]]. exact (@get_none_notin _ _ G Hin).
Qed.

Lemma wf_update (m d : dict K V) : wf d -> wf (update eqb m d).
Proof.
  unfold update. revert d.
  induction m as [|[k v] m IH]; simpl; intros d Hwf; [exact Hwf|].
  apply IH. now apply wf_setitem.
Qed.

Lemma wf_delitem k (d r : dict K V) :
  delitem eqb k d = Some r -> wf d -> wf r.
Proof.
  unfold wf. revert r. induction d as [|[k0 v0] d IH]; simpl; [discriminate|].
  intros r. destruct (eqb k k0).
  - intros [= <-] Hnd. now inversion Hnd.
  - destruct (delitem eqb k d) as [r'|] eqn:D; [|discriminate].
    intros [= <-] Hnd. inversion Hnd as [|? ? Hnotin Hnd']; subst. simpl.
    constructor; [|now apply (IH r')].
    intros Hin. apply Hnotin. eapply keys_delitem; eassumption.
Qed.

Lemma delitem_absent k (d : dict K V) :
  get eqb k d = None -> delitem eqb k d = None.
Proof.
  induction d as [|[k0 v0] d IH]; simpl; [reflexivity|].
  destruct (eqb k k0); [discriminate|]. intros Hg. now rewrite IH.
Qed.

Lemma delitem_present k v (d : dict K V) :
  get eqb k d = Some v -> exists r, delitem eqb k d = Some r.
Proof.
  induction d as [|[k0 v0] d IH]; simpl; [discriminate|].
  destruct (eqb k k0); [eexists; reflexivity|].
  intros Hg. destruct (IH Hg) as [r ->]. eexists; reflexivity.
Qed.
End Order.
End PyDictOrder.

(* ================================================================== *)
(** ** Instances of [set_processors] over whole batches *)
(* ================================================================== *)

Unset Implicit Arguments.

Lemma with_PROCESSORS_twice w d : with_PROCESSORS (with_PROCESSORS w d) (_PROCESSORS w) = w.
Proof. now destruct w. Qed.

(** For a batch with distinct keys the loop of [__init__] records each
    key once, in batch order, with what the registry held for it. *)
Lemma snapshot_prior procs ks before :
  NoDup ks ->
  (forall k, In k ks -> ~ In k (PyDict.keys before)) ->
  snapshot procs ks before = before ++ prior_items procs ks.
Proof.
  unfold snapshot. revert before.
  induction ks as [|k ks IH]; simpl; intros before Hnd Hdisj.
  - now rewrite app_nil_r.
  - inversion Hnd as [|? ? Hnotin Hnd']; subst.
    rewrite PyDictFacts.setitem_absent
      by (apply (PyDictFacts.get_notin hkey_eqb hkey_eqb_eq); apply Hdisj; now left).
    rewrite IH; [now rewrite <- app_assoc | exact Hnd' |].
    intros k' Hin. unfold PyDict.keys. rewrite map_app, in_app_iff. simpl.
    intros [Hb|[->|[]]]; [|contradiction].
    apply (Hdisj k'); [now right | exact Hb].
Qed.

Lemma init_ok_shape mapping clobber w self w1 :
  NoDup (PyDict.keys mapping) ->
  set_processors_init mapping clobber w = (Ok self, w1) ->
  self = {| _before := prior_items (_PROCESSORS w) (PyDict.keys mapping) |}
  /\ w1 = with_PROCESSORS w (PyDict.update hkey_eqb mapping (_PROCESSORS w)).
Proof.
  intros Hnd.
  assert (Hs : snapshot (_PROCESSORS w) (PyDict.keys mapping) []
               = prior_items (_PROCESSORS w) (PyDict.keys mapping)).
  { rewrite snapshot_prior; [reflexivity | exact Hnd | intros k _ []]. }
  destruct clobber.
  - rewrite init_clobber, Hs. now intros [= <- <-].
  - rewrite init_no_clobber, Hs. destruct (first_collision _ _); [discriminate|].
    now intros [= <- <-].
Qed.

Lemma init_raise_state mapping clobber w e w1 :
  set_processors_init mapping clobber w = (Raise e, w1) -> w1 = w.
Proof.
  destruct clobber.
  - rewrite init_clobber. discriminate.
  - rewrite init_no_clobber. destruct (first_collision _ _); [|discriminate].
    now intros [= _ <-].
Qed.

(* ------------------------------------------------------------------ *)
(** *** one turn of the loop of [__exit__] *)

Lemma exit_loop_nil w : set_processors_exit_loop [] w = (Ok tt, w).
Proof. reflexivity. Qed.

Lemma exit_loop_some k v rest w :
  set_processors_exit_loop ((k, Some v) :: rest) w
  = set_processors_exit_loop rest
      (with_PROCESSORS w (PyDict.setitem hkey_eqb k v (_PROCESSORS w))).
Proof. reflexivity. Qed.

Lemma exit_loop_none_ok k rest w d :
  PyDict.delitem hkey_eqb k (_PROCESSORS w) = Some d ->
  set_processors_exit_loop ((k, None) :: rest) w
  = set_processors_exit_loop rest (with_PROCESSORS w d).
Proof.
  intros E. simpl. unfold bind at 1, del_PROCESSORS, bind at 1, read_PROCESSORS.
  now rewrite E.
Qed.

Lemma exit_loop_none_raise k rest w :
  PyDict.delitem hkey_eqb k (_PROCESSORS w) = None ->
  set_processors_exit_loop ((k, None) :: rest) w = (Raise (KeyError k), w).
Proof.
  intros E. simpl. unfold bind at 1, del_PROCESSORS, bind at 1, read_PROCESSORS.
  now rewrite E.
Qed.

(** Undoing a batch from the registry it produced gives the registry
    back, entry for entry. *)
Lemma exit_loop_roundtrip mapping procs w2 :
  NoDup (PyDict.keys mapping) ->
  _PROCESSORS w2 = PyDict.update hkey_eqb mapping procs ->
  set_processors_exit_loop (prior_items procs (PyDict.keys mapping)) w2
  = (Ok tt, with_PROCESSORS w2 procs).
Proof.
  revert w2. induction mapping as [|[k v] mapping IH]; intros w2 Hnd Hw2.
  - simpl in *. unfold PyDict.update in Hw2. simpl in Hw2. subst procs.
    now rewrite with_PROCESSORS_same.
  - simpl in Hnd. inversion Hnd as [|? ? Hnotin Hnd']; subst.
    change (PyDict.update hkey_eqb ((k, v) :: mapping) procs)
      with (PyDict.update hkey_eqb mapping (PyDict.setitem hkey_eqb k v procs))
      in Hw2.
    change (prior_items procs (PyDict.keys ((k, v) :: mapping)))
      with ((k, PyDict.get hkey_eqb k procs)
            :: prior_items procs (PyDict.keys mapping)).
    destruct (PyDict.get hkey_eqb k procs) as [v0|] eqn:G.
    + rewrite exit_loop_some, IH; [reflexivity | exact Hnd' |]. simpl.
      rewrite Hw2.
      rewrite (PyDictOrder.setitem_update hkey_eqb hkey_eqb_eq)
        with (v0 := v); [| exact Hnotin |].
      * now rewrite (PyDictFacts.setitem_present hkey_eqb) by exact G.
      * apply (PyDictFacts.get_setitem_eq hkey_eqb hkey_eqb_eq).
    + assert (D : PyDict.delitem hkey_eqb k (_PROCESSORS w2)
                  = Some (PyDict.update hkey_eqb mapping procs)).
      { rewrite Hw2.
        apply (PyDictOrder.delitem_update hkey_eqb hkey_eqb_eq); [exact Hnotin|].
        rewrite PyDictFacts.setitem_absent by exact G.
        apply (PyDictFacts.delitem_snoc hkey_eqb hkey_eqb_eq). exact G. }
      rewrite (exit_loop_none_ok _ _ _ _ D), IH; [reflexivity | exact Hnd' | reflexivity].
Qed.

(** Undoing a batch again, from the registry already restored. *)
Lemma exit_loop_again ks w :
  set_processors_exit_loop (prior_items (_PROCESSORS w) ks) w
  = match fresh_keys (_PROCESSORS w) ks with
    | k :: _ => (Raise (KeyError k), w)
    | [] => (Ok tt, w)
    end.
Proof.
  induction ks as [|k ks IH]; [reflexivity|].
  change (prior_items (_PROCESSORS w) (k :: ks))
    with ((k, PyDict.get hkey_eqb k (_PROCESSORS w))
          :: prior_items (_PROCESSORS w) ks).
  change (fresh_keys (_PROCESSORS w) (k :: ks))
    with (if negb (PyDict.contains hkey_eqb k (_PROCESSORS w))
          then k :: fresh_keys (_PROCESSORS w) ks
          else fresh_keys (_PROCESSORS w) ks).
  unfold PyDict.contains.
  destruct (PyDict.get hkey_eqb k (_PROCESSORS w)) as [v0|] eqn:G.
  - rewrite exit_loop_some.
    rewrite (PyDictOrder.setitem_same hkey_eqb) by exact G.
    rewrite with_PROCESSORS_same. exact IH.
  - apply exit_loop_none_raise.
    now apply (PyDictOrder.delitem_absent hkey_eqb).
Qed.

(* ------------------------------------------------------------------ *)
(** *** the [with] statement *)

Lemma with_set_processors_ok {A} (body : M A) mapping clobber w self w1 :
  set_processors_init mapping clobber w = (Ok self, w1) ->
  with_set_processors mapping clobber body w =
  match body w1 with
  | (r, w2) =>
      match set_processors_exit self w2 with
      | (Ok _, w3) => (r, w3)
      | (Raise e, w3) => (Raise e, w3)
      end
  end.
Proof.
  intros E. unfold with_set_processors, bind at 1. now rewrite E.
Qed.

Lemma with_set_processors_raise {A} (body : M A) mapping clobber w e w1 :
  set_processors_init mapping clobber w = (Raise e, w1) ->
  with_set_processors mapping clobber body w = (Raise e, w1).
Proof.
  intros E. unfold with_set_processors, bind at 1. now rewrite E.
Qed.

Lemma with_set_processors_restores {A} (body : M A) mapping clobber w self w1 :
  NoDup (PyDict.keys mapping) ->
  set_processors_init mapping clobber w = (Ok self, w1) ->
  procs_after body w1 = _PROCESSORS w1 ->
  with_set_processors mapping clobber body w
  = (result_of body w1, with_PROCESSORS (snd (body w1)) (_PROCESSORS w)).
Proof.
  intros Hnd Hinit Hbody.
  rewrite (with_set_processors_ok body _ _ _ _ _ Hinit).
  destruct (init_ok_shape _ _ _ _ _ Hnd Hinit) as [-> ->].
  unfold procs_after, result_of in *. destruct (body _) as [r w2].
  simpl in *. unfold set_processors_exit. simpl.
  now rewrite (exit_loop_roundtrip _ _ _ Hnd Hbody).
Qed.

Ltac distinct_keys :=
  simpl; repeat constructor; simpl; intuition discriminate.

(* ================================================================== *)
(** ** Scoped binds of whole batches *)
(* ================================================================== *)

(** X1.  A scoped bind of any batch with distinct keys, in either clobber
    mode, that got past [__init__], gives the registry back on exit exactly
    as it was before the bind, order of keys included, when the body leaves
    the registry alone; the [with] statement ends as the body ended and
    keeps what else the body did to the module state. *)
Theorem scoped_bind_restores_registry (A : Type) (body : M A)
    (mapping : registry) (clobber : bool) (w w1 : world)
    (self : set_processors) :
  NoDup (PyDict.keys mapping) ->
  set_processors_init mapping clobber w = (Ok self, w1) ->
  procs_after body w1 = _PROCESSORS w1 ->
  with_set_processors mapping clobber body w
  = (result_of body w1, with_PROCESSORS (snd (body w1)) (_PROCESSORS w)).
Proof.
  intros Hnd Hinit Hbody.
  rewrite (with_set_processors_ok body _ _ _ _ _ Hinit).
  destruct (init_ok_shape _ _ _ _ _ Hnd Hinit) as [-> ->].
  unfold procs_after, result_of in *.
  destruct (body _) as [r w2]. simpl in Hbody.
  unfold set_processors_exit. simpl.
  now rewrite (exit_loop_roundtrip _ _ _ Hnd Hbody).
Qed.

Lemma scoped_bind_restores_registry_witness :
  with_set_processors [(Example.B1, Example.f); (Example.int_, Example.f)] true
    Example.boom
    (Example.start [(Example.int_, Example.g); (Example.str_, Example.h)])
  = (Raise (KeyError Example.sentinel),
     Example.start [(Example.int_, Example.g); (Example.str_, Example.h)]).
Proof.
  apply (scoped_bind_restores_registry unit Example.boom
           [(Example.B1, Example.f); (Example.int_, Example.f)] true
           (Example.start [(Example.int_, Example.g); (Example.str_, Example.h)])
           (Example.start [(Example.int_, Example.f); (Example.str_, Example.h);
                           (Example.B1, Example.f)])
           {| _before := [(Example.B1, None); (Example.int_, Some Example.g)] |}).
  - distinct_keys.
  - reflexivity.
  - reflexivity.
Defined.

(** X2.  Scoped binds nest: around any inner scoped bind, whether the
    inner one gets in or raises its [ValueError], the outer one gives the
    registry back as it was, when the innermost body leaves the registry
    alone. *)
Theorem nested_scoped_binds_restore (A : Type) (body : M A)
    (m1 m2 : registry) (c1 c2 : bool) (w w1 : world) (s1 : set_processors) :
  NoDup (PyDict.keys m1) ->
  NoDup (PyDict.keys m2) ->
  set_processors_init m1 c1 w = (Ok s1, w1) ->
  (forall w', procs_after body w' = _PROCESSORS w') ->
  procs_after (with_set_processors m1 c1 (with_set_processors m2 c2 body)) w
  = _PROCESSORS w.
Proof.
  intros Hnd1 Hnd2 Hinit1 Hbody.
  assert (Hinner : procs_after (with_set_processors m2 c2 body) w1
                   = _PROCESSORS w1).
  { unfold procs_after.
    destruct (set_processors_init m2 c2 w1) as [[s2|e] w2] eqn:Hinit2.
    - rewrite (with_set_processors_restores body m2 c2 w1 s2 w2 Hnd2 Hinit2
                 (Hbody w2)). reflexivity.
    - rewrite (with_set_processors_raise body m2 c2 w1 e w2 Hinit2). simpl.
      now rewrite (init_raise_state _ _ _ _ _ Hinit2). }
  unfold procs_after at 1.
  rewrite (with_set_processors_restores _ m1 c1 w s1 w1 Hnd1 Hinit1 Hinner).
  reflexivity.
Qed.

Lemma nested_scoped_binds_restore_witness :
  procs_after
    (with_set_processors [(Example.int_, Example.f)] true
       (with_set_processors [(Example.int_, Example.h); (Example.B1, Example.h)]
          true (get_processor Example.issub (Hashable Example.int_))))
    (Example.start [(Example.int_, Example.g)])
  = [(Example.int_, Example.g)].
Proof.
  apply (nested_scoped_binds_restore _
           (get_processor Example.issub (Hashable Example.int_))
           [(Example.int_, Example.f)]
           [(Example.int_, Example.h); (Example.B1, Example.h)] true true
           (Example.start [(Example.int_, Example.g)])
           (Example.start [(Example.int_, Example.f)])
           {| _before := [(Example.int_, Some Example.g)] |}).
  - distinct_keys.
  - distinct_keys.
  - reflexivity.
  - intros w'. unfold procs_after. now rewrite get_processor_hashable.
Defined.

(** X3.  [__exit__] is for one use: after a bind with distinct keys, a
    second [__exit__] finds the registry already restored, so it raises the
    [KeyError] of the first key that the bind had added, without changing
    the registry, and it is harmless only when every key of the batch was
    registered before the bind. *)
Theorem second_exit (mapping : registry) (clobber : bool) (w w1 : world)
    (self : set_processors) :
  NoDup (PyDict.keys mapping) ->
  set_processors_init mapping clobber w = (Ok self, w1) ->
  (set_processors_exit self ;;; set_processors_exit self) w1
  = match fresh_keys (_PROCESSORS w) (PyDict.keys mapping) with
    | k :: _ => (Raise (KeyError k), w)
    | [] => (Ok tt, w)
    end.
Proof.
  intros Hnd Hinit. destruct (init_ok_shape _ _ _ _ _ Hnd Hinit) as [-> ->].
  unfold bind, set_processors_exit. simpl _before.
  rewrite (exit_loop_roundtrip mapping (_PROCESSORS w)
             (with_PROCESSORS w (PyDict.update hkey_eqb mapping (_PROCESSORS w)))
             Hnd eq_refl).
  rewrite with_PROCESSORS_twice. apply exit_loop_again.
Qed.

Lemma second_exit_witness :
  (set_processors_exit {| _before := [(Example.int_, Some Example.g);
                                      (Example.B1, None)] |} ;;;
   set_processors_exit {| _before := [(Example.int_, Some Example.g);
                                      (Example.B1, None)] |})
    (Example.start [(Example.int_, Example.f); (Example.B1, Example.f)])
  = (Raise (KeyError Example.B1), Example.start [(Example.int_, Example.g)]).
Proof.
  apply (second_exit [(Example.int_, Example.f); (Example.B1, Example.f)] true
           (Example.start [(Example.int_, Example.g)])).
  - distinct_keys.
  - reflexivity.
Defined.

(** X4.  After a bind of a batch with distinct keys that got past
    [__init__], the lookup of each key of the batch gives the processor the
    batch holds for it, whatever ancestors of the key are registered. *)
Theorem bind_then_lookup (H : hierarchy) (mapping : registry) (clobber : bool)
    (w w1 : world) (self : set_processors) (k : hkey) (v : pyfunc) :
  NoDup (PyDict.keys mapping) ->
  set_processors_init mapping clobber w = (Ok self, w1) ->
  PyDict.get hkey_eqb k mapping = Some v ->
  get_processor H (Hashable k) w1 = (Ok (Some v), w1).
Proof.
  intros Hnd Hinit Hget. destruct (init_ok_shape _ _ _ _ _ Hnd Hinit) as [_ ->].
  rewrite get_processor_hashable. unfold lookup_outcome. simpl.
  rewrite (PyDictOrder.get_update hkey_eqb hkey_eqb_eq) by exact Hnd.
  now rewrite Hget.
Qed.

Lemma bind_then_lookup_witness :
  get_processor Example.issub (Hashable Example.D)
    (Example.start [(Example.B1, Example.g); (Example.int_, Example.f);
                    (Example.D, Example.h)])
  = (Ok (Some Example.h),
     Example.start [(Example.B1, Example.g); (Example.int_, Example.f);
                    (Example.D, Example.h)]).
Proof.
  apply (bind_then_lookup Example.issub
           [(Example.int_, Example.f); (Example.D, Example.h)] false
           (Example.start [(Example.B1, Example.g)]) _
           {| _before := [(Example.int_, None); (Example.D, None)] |}).
  - distinct_keys.
  - reflexivity.
  - reflexivity.
Defined.

(** X5.  [__init__] returns exactly when [clobber] is true or no key of
    the batch is registered; so with [clobber=True] it never raises. *)
Theorem init_succeeds_iff (mapping : registry) (clobber : bool) (w : world) :
  (exists self w1, set_processors_init mapping clobber w = (Ok self, w1))
  <-> (clobber = true
       \/ forall k, In k (PyDict.keys mapping) ->
                    PyDict.contains hkey_eqb k (_PROCESSORS w) = false).
Proof.
  destruct clobber.
  - rewrite init_clobber. split; [now left | intros _; eauto].
  - rewrite init_no_clobber. unfold first_collision.
    destruct (find _ _) as [k|] eqn:F.
    + split.
      * intros (self & w1 & E). discriminate E.
      * intros [E|Hall]; [discriminate|].
        apply find_some in F as [Hin Hc]. rewrite (Hall k Hin) in Hc.
        discriminate.
    + split; [|intros _; eauto].
      intros _. right. intros k Hin.
      destruct (PyDict.contains hkey_eqb k (_PROCESSORS w)) eqn:C; [|reflexivity].
      now rewrite (find_none _ _ F k Hin) in C.
Qed.

(** X6.  A bind that got past [__init__] keeps the scan order of the
    registry: the keys registered before stay where they were, also the
    ones it overwrites, and the keys it adds follow in batch order. *)
Theorem bind_keeps_scan_order (mapping : registry) (clobber : bool)
    (w w1 : world) (self : set_processors) :
  NoDup (PyDict.keys mapping) ->
  set_processors_init mapping clobber w = (Ok self, w1) ->
  PyDict.keys (_PROCESSORS w1)
  = PyDict.keys (_PROCESSORS w)
    ++ fresh_keys (_PROCESSORS w) (PyDict.keys mapping).
Proof.
  intros Hnd Hinit. destruct (init_ok_shape _ _ _ _ _ Hnd Hinit) as [_ ->].
  simpl. now apply (PyDictOrder.keys_update hkey_eqb hkey_eqb_eq).
Qed.

Lemma bind_keeps_scan_order_witness :
  PyDict.keys
    (procs_after
       (set_processors_init
          [(Example.D, Example.f); (Example.B2, Example.f);
           (Example.int_, Example.f)] true)
       (Example.start [(Example.B1, Example.g); (Example.B2, Example.h)]))
  = [Example.B1; Example.B2; Example.D; Example.int_].
Proof.
  apply (bind_keeps_scan_order
           [(Example.D, Example.f); (Example.B2, Example.f);
            (Example.int_, Example.f)] true
           (Example.start [(Example.B1, Example.g); (Example.B2, Example.h)])
           _ {| _before := [(Example.D, None); (Example.B2, Some Example.h);
                            (Example.int_, None)] |}).
  - distinct_keys.
  - reflexivity.
Defined.

(* ================================================================== *)
(** ** What the operations keep *)
(* ================================================================== *)

Lemma exit_loop_wf items w :
  PyDict.wf (_PROCESSORS w) ->
  PyDict.wf (_PROCESSORS (snd (set_processors_exit_loop items w))).
Proof.
  revert w. induction items as [|[k [v|]] items IH]; intros w Hwf.
  - exact Hwf.
  - rewrite exit_loop_some. apply IH. simpl.
    now apply (PyDictOrder.wf_setitem hkey_eqb hkey_eqb_eq).
  - destruct (PyDict.delitem hkey_eqb k (_PROCESSORS w)) as [d|] eqn:D.
    + rewrite (exit_loop_none_ok _ _ _ _ D). apply IH. simpl.
      exact (PyDictOrder.wf_delitem hkey_eqb k D Hwf).
    + now rewrite (exit_loop_none_raise _ _ _ D).
Qed.

Lemma init_procs mapping clobber w :
  procs_after (set_processors_init mapping clobber) w = _PROCESSORS w
  \/ procs_after (set_processors_init mapping clobber) w
     = PyDict.update hkey_eqb mapping (_PROCESSORS w).
Proof.
  unfold procs_after. destruct clobber.
  - rewrite init_clobber. now right.
  - rewrite init_no_clobber. destruct (first_collision _ _); [now left | now right].
Qed.

(** What [processor] does to the module state, case by case. *)
Lemma processor_effect func w :
  (exists r, processor func w = (r, w))
  \/ processor func w
     = (Ok func,
        {| _PROCESSORS := _PROCESSORS w;
           emitted := emitted w ++ [UserWarning func no_hints_text] |})
  \/ exists key,
       key <> KNone
       /\ PyDict.get hkey_eqb key (_PROCESSORS w) = None
       /\ processor func w
          = (Ok func, with_PROCESSORS w (_PROCESSORS w ++ [(key, func)])).
Proof.
  destruct (PyDict.pop String.eqb "return" (get_type_hints func))
    as [|[name key] rest] eqn:Hpop.
  - right. left. unfold processor. now rewrite Hpop.
  - destruct key as [c| |i].
    + assert (Hk : KClass c <> KNone) by discriminate.
      rewrite (@processor_bound func w name (KClass c) rest Hpop Hk).
      destruct (PyDict.get hkey_eqb (KClass c) (_PROCESSORS w)) eqn:G.
      * left. eauto.
      * right. right. exists (KClass c). now rewrite G.
    + left. rewrite (@processor_first_hint func w name KNone rest Hpop). eauto.
    + assert (Hk : KObject i <> KNone) by discriminate.
      rewrite (@processor_bound func w name (KObject i) rest Hpop Hk).
      destruct (PyDict.get hkey_eqb (KObject i) (_PROCESSORS w)) eqn:G.
      * left. eauto.
      * right. right. exists (KObject i). now rewrite G.
Qed.

(** X7.  The registry keeps each key once: from a registry with distinct
    keys, [__init__], [__exit__] of any instance, also when it raises half
    way, and the decorator all leave a registry with distinct keys. *)
Theorem registry_keys_stay_distinct (w : world) :
  PyDict.wf (_PROCESSORS w) ->
  (forall mapping clobber,
     PyDict.wf (procs_after (set_processors_init mapping clobber) w))
  /\ (forall self, PyDict.wf (procs_after (set_processors_exit self) w))
  /\ (forall func, PyDict.wf (procs_after (processor func) w)).
Proof.
  intros Hwf. split; [|split].
  - intros mapping clobber.
    destruct (init_procs mapping clobber w) as [-> | ->]; [exact Hwf|].
    now apply (PyDictOrder.wf_update hkey_eqb hkey_eqb_eq).
  - intros self. now apply exit_loop_wf.
  - intros func. unfold procs_after.
    destruct (processor_effect func w) as [[r ->] | [-> | (key & _ & G & ->)]];
      simpl; try exact Hwf.
    rewrite <- (PyDictFacts.setitem_absent hkey_eqb key func _ G).
    now apply (PyDictOrder.wf_setitem hkey_eqb hkey_eqb_eq).
Qed.

Lemma registry_keys_stay_distinct_witness :
  PyDict.wf
    (procs_after
       (set_processors_init [(Example.int_, Example.f); (Example.B1, Example.f)]
          true)
       (Example.start [(Example.int_, Example.g)])).
Proof.
  apply (registry_keys_stay_distinct (Example.start [(Example.int_, Example.g)])).
  unfold PyDict.wf. distinct_keys.
Defined.

(* ================================================================== *)
(** ** The decorator and the lookup together *)
(* ================================================================== *)

(** X8.  Decorating [func], whose first parameter hint [key] is not
    [None] and is not registered, and then looking [key] up gives [func]. *)
Theorem processor_then_lookup (H : hierarchy) (func : pyfunc) (w : world)
    (name : string) (key : hkey) (rest : PyDict.dict string hkey) :
  PyDict.pop String.eqb "return" (get_type_hints func) = (name, key) :: rest ->
  key <> KNone ->
  PyDict.get hkey_eqb key (_PROCESSORS w) = None ->
  (processor func ;;; get_processor H (Hashable key)) w
  = (Ok (Some func), with_PROCESSORS w (_PROCESSORS w ++ [(key, func)])).
Proof.
  intros Hpop Hkey Hget. unfold bind.
  rewrite (@processor_bound func w name key rest Hpop Hkey), Hget.
  rewrite get_processor_hashable. unfold lookup_outcome. simpl.
  now rewrite (@get_snoc_absent key func _ Hget).
Qed.

Lemma processor_then_lookup_witness :
  (processor Example.f ;;; get_processor Example.issub (Hashable Example.int_))
    (Example.start [(Example.object_, Example.h)])
  = (Ok (Some Example.f),
     Example.start [(Example.object_, Example.h); (Example.int_, Example.f)]).
Proof.
  apply (processor_then_lookup Example.issub Example.f
           (Example.start [(Example.object_, Example.h)]) "x" Example.int_ []).
  - reflexivity.
  - discriminate.
  - reflexivity.
Defined.

(** X9.  The decorator never overwrites or removes a binding and never
    moves a key: for every function and every state, the registry after it
    is the registry before it, followed by at most the one new binding of
    an unregistered key to that function. *)
Theorem processor_only_appends (func : pyfunc) (w : world) :
  procs_after (processor func) w = _PROCESSORS w
  \/ exists key,
       key <> KNone
       /\ PyDict.get hkey_eqb key (_PROCESSORS w) = None
       /\ procs_after (processor func) w = _PROCESSORS w ++ [(key, func)].
Proof.
  unfold procs_after.
  destruct (processor_effect func w) as [[r ->] | [-> | (key & Hk & G & ->)]].
  - now left.
  - now left.
  - right. exists key. auto.
Qed.

(** X10.  The lookup only gives registered processors: a processor it
    returns for [T] is registered under [T] itself or under a class that
    [T], a class too, is a subclass of. *)
Theorem lookup_sound (H : hierarchy) (w w' : world) (T : hkey) (p : pyfunc) :
  get_processor H (Hashable T) w = (Ok (Some p), w') ->
  exists key,
    In (key, p) (_PROCESSORS w)
    /\ (key = T
        \/ exists d c, T = KClass d /\ key = KClass c /\ H d c = Ok true).
Proof.
  rewrite get_processor_hashable. unfold lookup_outcome.
  destruct (PyDict.get hkey_eqb T (_PROCESSORS w)) as [v|] eqn:G.
  - intros [= -> _]. exists T. split; [|now left].
    now apply (PyDictOrder.get_in hkey_eqb hkey_eqb_eq).
  - destruct T as [d| |i]; try discriminate.
    intros [= Hs _]. destruct (@scan_outcome_some H d _ p Hs) as (c & Hin & Hc).
    exists (KClass c). split; [exact Hin|]. right.
    exists d, c. auto.
Qed.

Lemma lookup_sound_witness :
  exists key,
    In (key, Example.h)
       (_PROCESSORS (Example.start [(Example.str_, Example.g);
                                    (Example.object_, Example.h)]))
    /\ (key = Example.int_
        \/ exists d c, Example.int_ = KClass d /\ key = KClass c
                       /\ Example.issub d c = Ok true).
Proof.
  apply (lookup_sound Example.issub
           (Example.start [(Example.str_, Example.g); (Example.object_, Example.h)])
           (Example.start [(Example.str_, Example.g); (Example.object_, Example.h)])
           Example.int_ Example.h).
  reflexivity.
Defined.

(* ================================================================== *)
(** ** Scoped binds that go wrong *)
(* ================================================================== *)

(** X11.  A scoped bind without clobber that meets a registered key
    raises before its body runs: whatever the body is, the [with] statement
    raises the [ValueError] of the first such key of the batch and the
    module state is as it was. *)
Theorem scoped_bind_collision_skips_body (A : Type) (body : M A)
    (mapping : registry) (w : world) (k : hkey) :
  first_collision (_PROCESSORS w) (PyDict.keys mapping) = Some k ->
  with_set_processors mapping false body w = (Raise (ValueError k), w).
Proof.
  intros Hc. apply with_set_processors_raise.
  rewrite init_no_clobber. now rewrite Hc.
Qed.

Lemma scoped_bind_collision_skips_body_witness :
  with_set_processors [(Example.B1, Example.f); (Example.int_, Example.f)] false
    (processor Example.h)
    (Example.start [(Example.int_, Example.g)])
  = (Raise (ValueError Example.int_), Example.start [(Example.int_, Example.g)]).
Proof.
  apply (scoped_bind_collision_skips_body pyfunc (processor Example.h)
           [(Example.B1, Example.f); (Example.int_, Example.f)]
           (Example.start [(Example.int_, Example.g)]) Example.int_).
  reflexivity.
Defined.

(** X12.  Instances must be left in the reverse order of their creation.
    When [a] binds [T] to [f2], then [b] binds [T] to [f3], and [a] is left
    before [b], both exits return but [T] ends bound to [f2], the processor
    of [a], whatever [T] was bound to at the start. *)
Theorem exits_out_of_order (T : hkey) (f2 f3 : pyfunc) (w : world) :
  exists w',
    (a <- set_processors_init [(T, f2)] true ;;
     b <- set_processors_init [(T, f3)] true ;;
     set_processors_exit a ;;;
     set_processors_exit b) w = (Ok tt, w')
    /\ PyDict.get hkey_eqb T (_PROCESSORS w') = Some f2.
Proof.
  unfold bind at 1. rewrite init_clobber.
  unfold bind at 1. rewrite init_clobber.
  unfold snapshot, PyDict.update, set_processors_exit.
  cbn [PyDict.keys map fst snd fold_left _before _PROCESSORS with_PROCESSORS
       PyDict.setitem].
  rewrite (PyDictFacts.get_setitem_eq hkey_eqb hkey_eqb_eq).
  unfold bind at 1.
  destruct (PyDict.get hkey_eqb T (_PROCESSORS w)) as [f1|] eqn:G.
  - rewrite exit_loop_some, exit_loop_nil. cbv beta iota.
    rewrite exit_loop_some, exit_loop_nil.
    eexists. split; [reflexivity|]. cbn [_PROCESSORS with_PROCESSORS].
    apply (PyDictFacts.get_setitem_eq hkey_eqb hkey_eqb_eq).
  - assert (D : exists r,
               PyDict.delitem hkey_eqb T
                 (PyDict.setitem hkey_eqb T f3
                    (PyDict.setitem hkey_eqb T f2 (_PROCESSORS w))) = Some r).
    { eapply PyDictOrder.delitem_present.
      apply (PyDictFacts.get_setitem_eq hkey_eqb hkey_eqb_eq). }
    destruct D as [r D].
    erewrite exit_loop_none_ok by exact D.
    rewrite exit_loop_nil. cbv beta iota.
    rewrite exit_loop_some, exit_loop_nil.
    eexists. split; [reflexivity|]. cbn [_PROCESSORS with_PROCESSORS].
    apply (PyDictFacts.get_setitem_eq hkey_eqb hkey_eqb_eq).
Qed.
